(** * Checkpoint weight loading of nano-vllm (acestep/third_parts/nano-vllm)

    A shallow embedding of [nanovllm/utils/loader.py]: [default_weight_loader]
    and [load_model], with the Python string operations, the tensor copy and
    the exception flow they rely on, followed by the properties of the loader
    that are checked against it. *)

From Stdlib Require Import ZArith String Ascii List Lia.
From stdpp Require Import base option list gmap strings sorting pretty.

Local Open Scope string_scope.
Local Open Scope list_scope.
Local Open Scope nat_scope.

(** ** Python strings *)

Module PyStr.

(** [k in s] for two [str] values: [k] occurs in [s] as a substring.  The
    empty string occurs in every string. *)
Fixpoint contains (k s : string) : bool :=
  String.prefix k s ||
  match s with
  | EmptyString => false
  | String _ s' => contains k s'
  end.

(** [s.find(k)]: the index of the leftmost occurrence of [k] in [s]. *)
Fixpoint find (k s : string) : option nat :=
  if String.prefix k s then Some 0
  else match s with
       | EmptyString => None
       | String _ s' => S <$> find k s'
       end.

(** [s.replace(k, v)] for a non-empty [k]: a scan from the left that emits
    [v] at every position where [k] starts and then skips the rest of that
    occurrence ([skip] characters are still to be skipped), so that
    occurrences are replaced leftmost first and never overlap. *)
Fixpoint replace_from (skip : nat) (k v s : string) : string :=
  match s with
  | EmptyString => EmptyString
  | String c s' =>
      match skip with
      | S n => replace_from n k v s'
      | O =>
          if String.prefix k s
          then v +:+ replace_from (String.length k - 1) k v s'
          else String c (replace_from 0 k v s')
      end
  end.

(** [s.replace("", v)]: [v] is put before every character and at the end. *)
Fixpoint interleave (v s : string) : string :=
  match s with
  | EmptyString => v
  | String c s' => v +:+ String c (interleave v s')
  end.

(** [s.replace(k, v)] with no count: every occurrence is replaced. *)
Definition replace (s k v : string) : string :=
  match k with
  | EmptyString => interleave v s
  | String _ _ => replace_from 0 k v s
  end.

(** [s[:n]] and [s[n:]]. *)
Definition take (n : nat) (s : string) : string := String.substring 0 n s.

Fixpoint drop (n : nat) (s : string) : string :=
  match n, s with
  | O, _ => s
  | S n', EmptyString => EmptyString
  | S n', String _ s' => drop n' s'
  end.

(** [c * n] for a one-character string. *)
Fixpoint repeat (c : ascii) (n : nat) : string :=
  match n with
  | O => EmptyString
  | S n' => String c (repeat c n')
  end.

(** Replacement of the first occurrence only, [s.replace(k, v, 1)].  The
    loader never calls it; it is what a first-occurrence rewrite would
    compute and serves as the term of comparison for [replace]. *)
Definition replace_first (s k v : string) : string :=
  match find k s with
  | Some i => take i s +:+ v +:+ drop (i + String.length k) s
  | None => s
  end.

End PyStr.

(** ** Exceptions and results *)

Inductive exc_class :=
| AttributeError
| FileNotFoundError
| RuntimeError
| TypeError
| SafetensorError.

#[global] Instance exc_class_eq_dec : EqDecision exc_class.
Proof. solve_decision. Defined.

(** A raised exception: its class and [str(e)]. *)
Record PyExc := { exc_type : exc_class; exc_msg : string }.

Inductive result (A : Type) :=
| Ok (a : A)
| Raise (e : PyExc).
Arguments Ok {A} a.
Arguments Raise {A} e.

(** ** Tensors and [Tensor.copy_]

    torch is not part of the repository; [copy_] follows its documented
    behaviour: the source must be broadcastable to the destination, its
    elements are converted to the destination's element type, and the
    destination keeps its own shape and dtype.  Element types are the integer
    ones, whose conversion is a wrap-around; floating-point element types are
    outside this embedding. *)

Inductive dtype := Int8 | UInt8 | Int16 | Int32 | Int64.

#[global] Instance dtype_eq_dec : EqDecision dtype.
Proof. solve_decision. Defined.

Definition dtype_bits (d : dtype) : Z :=
  match d with
  | Int8 | UInt8 => 8
  | Int16 => 16
  | Int32 => 32
  | Int64 => 64
  end%Z.

Definition dtype_signed (d : dtype) : bool :=
  match d with
  | UInt8 => false
  | _ => true
  end.

Definition wrap (d : dtype) (x : Z) : Z :=
  let m := (2 ^ dtype_bits d)%Z in
  if dtype_signed d then ((x + m / 2) mod m - m / 2)%Z else (x mod m)%Z.

Definition convert (src dst : dtype) (x : Z) : Z :=
  if decide (src = dst) then x else wrap dst x.

Record Tensor := { t_dtype : dtype; t_shape : list nat; t_data : list Z }.

(** Number of elements of a shape. *)
Definition numel (shape : list nat) : nat := foldr Nat.mul 1 shape.

(** A tensor holds one element per index, in row-major order. *)
Definition tensor_wf (t : Tensor) : Prop := length (t_data t) = numel (t_shape t).

(** Shapes are aligned at the last dimension; missing leading dimensions of
    the source count as 1. *)
Definition align (n : nat) (shape : list nat) : list nat :=
  replicate (n - length shape) 1 ++ shape.

Fixpoint broadcastable_aligned (dst src : list nat) : bool :=
  match dst, src with
  | [], [] => true
  | d :: dst', s :: src' => ((s =? d)%nat || (s =? 1)%nat) && broadcastable_aligned dst' src'
  | _, _ => false
  end.

Definition broadcastable (dst src : list nat) : bool :=
  (length src <=? length dst) && broadcastable_aligned dst (align (length dst) src).

(** Row-major offset in the source of the element that lands at offset [i]
    of the destination: a source dimension of size 1 is read at index 0. *)
Fixpoint src_offset (dst src : list nat) (i : nat) : nat :=
  match dst, src with
  | _ :: dst', s :: src' =>
      let q := i / numel dst' in
      let r := i mod numel dst' in
      (if (s =? 1)%nat then 0 else q) * numel src' + src_offset dst' src' r
  | _, _ => 0
  end.

Definition expand (dst src : list nat) (data : list Z) : list Z :=
  (fun i => nth (src_offset dst (align (length dst) src) i) data 0%Z) <$> seq 0 (numel dst).

(** [dst.copy_(src)]. *)
Definition copy_ (dst src : Tensor) : result Tensor :=
  if broadcastable (t_shape dst) (t_shape src)
  then Ok {| t_dtype := t_dtype dst;
             t_shape := t_shape dst;
             t_data := convert (t_dtype src) (t_dtype dst)
                         <$> expand (t_shape dst) (t_shape src) (t_data src) |}
  else Raise {| exc_type := RuntimeError;
                exc_msg := "The size of tensor a must match the size of tensor b" |}.

(** ** The model being loaded and the checkpoint *)

(** A shard identifier is whatever the model put in its packing table:
    ["q"], ["k"], ["v"] or an index. *)
Inductive shard_id :=
| ShardName (s : string)
| ShardIndex (n : Z).

(** A callable stored in a parameter's [weight_loader] attribute, or
    [default_weight_loader].  It receives the parameter's storage, the loaded
    tensor and, when the call has a third argument, the shard identifier; it
    returns the storage it leaves behind, or raises.  The loaders of the
    repository's layers write the parameter with one final [copy_], so a
    loader that raises has not changed the parameter. *)
Definition Loader : Type := Tensor → Tensor → option shard_id → result Tensor.

(** [nn.Parameter]: its [data], and the [weight_loader] attribute when the
    layer that owns the parameter has set one. *)
Record Param := { data : Tensor; weight_loader : option Loader }.

(** [packed_modules_mapping]: a dict from a pattern to a pair of replacement
    and shard identifier, in insertion order (keys are unique in a dict). *)
Definition PackedMapping : Type := list (string * (string * shard_id)).

(** [nn.Module], as far as the loader looks at it: the optional
    [packed_modules_mapping] attribute and the parameters by qualified name. *)
Record NnModule := {
  packed_modules_mapping : option PackedMapping;
  parameters : gmap string Param
}.

(** One [*.safetensors] file: its path and its tensors by key, in the order
    [f.keys()] reports them (keys are unique in a file). *)
Record ShardFile := { file_path : string; tensors : list (string * Tensor) }.

Definition keys (f : ShardFile) : list string := (tensors f).*1.

Fixpoint assoc (k : string) (l : list (string * Tensor)) : option Tensor :=
  match l with
  | [] => None
  | (k', t) :: l' => if decide (k = k') then Some t else assoc k l'
  end.

(** ** Effects: the parameter store, the calls made on it and standard output *)

Inductive event :=
| EvNamedParameters
| EvGetParameter (name : string)
| EvCall (name : string) (custom : bool) (storage loaded : Tensor) (shard : option shard_id)
| EvPrint (line : string).

Record State := { st_params : gmap string Param; st_trace : list event }.

(** A computation changes the state and returns or raises; what it did to the
    state before raising stays done. *)
Definition M (A : Type) : Type := State → State * result A.

Definition ret {A} (a : A) : M A := fun s => (s, Ok a).

Definition raise {A} (e : PyExc) : M A := fun s => (s, Raise e).

Definition bind {A B} (m : M A) (f : A → M B) : M B :=
  fun s =>
    match m s with
    | (s', Ok a) => f a s'
    | (s', Raise e) => (s', Raise e)
    end.

#[global] Instance M_ret : MRet M := @ret.
#[global] Instance M_bind : MBind M := fun A B f m => bind m f.

(** [try: m  except cls as e: h e]. *)
Definition try_except {A} (m : M A) (cls : exc_class) (h : PyExc → M A) : M A :=
  fun s =>
    match m s with
    | (s', Raise e) => if decide (exc_type e = cls) then h e s' else (s', Raise e)
    | r => r
    end.

Definition log (ev : event) (s : State) : State :=
  {| st_params := st_params s; st_trace := st_trace s ++ [ev] |}.

Definition emit (ev : event) : M unit := fun s => (log ev s, Ok tt).

Definition print (line : string) : M unit := emit (EvPrint line).

Fixpoint for_each {A} (l : list A) (body : A → M unit) : M unit :=
  match l with
  | [] => ret tt
  | x :: l' => body x;; for_each l' body
  end.

(** [dict(model.named_parameters())], of which the loader uses the keys. *)
Definition named_parameters : M (list string) :=
  fun s =>
    (log EvNamedParameters s, Ok (map_to_list (st_params s)).*1).

(** [model.get_parameter(name)]: the parameter, or [AttributeError] when the
    module has no parameter of that name (the text of the message is torch's). *)
Definition get_parameter (name : string) : M Param :=
  fun s =>
    let s' := log (EvGetParameter name) s in
    match st_params s !! name with
    | Some p => (s', Ok p)
    | None => (s', Raise {| exc_type := AttributeError;
                            exc_msg := "has no attribute `" +:+ name +:+ "`" |})
    end.

(** [f.get_tensor(key)]. *)
Definition get_tensor (f : ShardFile) (key : string) : M Tensor :=
  match assoc key (tensors f) with
  | Some t => ret t
  | None => raise {| exc_type := SafetensorError;
                     exc_msg := "File does not contain tensor " +:+ key |}
  end.

(** [loader(param, loaded)] or [loader(param, loaded, shard)] on the parameter
    registered as [name]; [custom] tells whether [loader] came from the
    parameter's attribute. *)
Definition call (name : string) (custom : bool) (loader : Loader)
    (param : Param) (loaded : Tensor) (shard : option shard_id) : M unit :=
  fun s =>
    let s' := log (EvCall name custom (data param) loaded shard) s in
    match loader (data param) loaded shard with
    | Ok d => ({| st_params := <[name := {| data := d; weight_loader := weight_loader param |}]>
                                 (st_params s');
                  st_trace := st_trace s' |}, Ok tt)
    | Raise e => (s', Raise e)
    end.

(** ** [loader.py] *)

(** [def default_weight_loader(param, loaded_weight)]. *)
Definition default_weight_loader (param loaded_weight : Tensor) : result Tensor :=
  copy_ param loaded_weight.

(** [default_weight_loader] as a callable: it takes two arguments. *)
Definition default_weight_loader_callable : Loader :=
  fun param loaded_weight shard =>
    match shard with
    | None => default_weight_loader param loaded_weight
    | Some _ => Raise {| exc_type := TypeError;
                         exc_msg := "default_weight_loader() takes 2 positional arguments but 3 were given" |}
    end.

(** [getattr(param, "weight_loader")]. *)
Definition getattr_weight_loader (param : Param) : M Loader :=
  match weight_loader param with
  | Some wl => ret wl
  | None => raise {| exc_type := AttributeError;
                     exc_msg := "'Parameter' object has no attribute 'weight_loader'" |}
  end.

(** [getattr(param, "weight_loader", default_weight_loader)]. *)
Definition getattr_weight_loader_or_default (param : Param) : Loader :=
  default default_weight_loader_callable (weight_loader param).

(** Lines 35-39: the body of [if k in weight_name], up to its [break]. *)
Definition load_packed (f : ShardFile) (weight_name k v : string) (shard : shard_id)
    : M unit :=
  let param_name := PyStr.replace weight_name k v in
  param ← get_parameter param_name;
  loader ← getattr_weight_loader param;
  loaded ← get_tensor f weight_name;
  call param_name true loader param loaded (Some shard).

(** Lines 42-44: the [else] branch of the [for], taken when no pattern of the
    table occurs in [weight_name]. *)
Definition load_unpacked (f : ShardFile) (weight_name : string) : M unit :=
  param ← get_parameter weight_name;
  let loader := getattr_weight_loader_or_default param in
  loaded ← get_tensor f weight_name;
  call weight_name (bool_decide (is_Some (weight_loader param))) loader param loaded None.

(** Lines 33-44: the [for k in packed_modules_mapping] loop with its [break]
    and its [else] branch, for one [weight_name] of [f]. *)
Fixpoint load_weight (packed : PackedMapping) (f : ShardFile) (weight_name : string)
    : M unit :=
  match packed with
  | (k, (v, shard)) :: rest =>
      if PyStr.contains k weight_name
      then load_packed f weight_name k v shard
      else load_weight rest f weight_name
  | [] => load_unpacked f weight_name
  end.

Definition nl : string := String "010"%char EmptyString.

(** ['=' * 60]. *)
Definition rule : string := PyStr.repeat "="%char 60.

(** [sorted(names)] on strings. *)
Definition sorted (names : list string) : list string := merge_sort String.le names.

(** Lines 54-57 and 59-62: the first 20 names in sorted order, one per
    [print], then the count of the names left out when there are more than
    20. *)
Definition report_names (names : list string) : list string :=
  ((fun name => "  " +:+ name) <$> take 20 (sorted names)) ++
  (if 20 <? length names
   then ["  ... and " +:+ pretty (length names - 20) +:+ " more"]
   else []).

(** Lines 47-63: the arguments of the successive [print] calls of the
    [except AttributeError as e] handler. *)
Definition report_lines (weight_name : string) (e : PyExc) (file : string)
    (all_weight_names model_params : list string) : list string :=
  [ nl +:+ rule;
    "[nano-vllm] Weight loading error!";
    rule;
    "Failed to load weight: " +:+ weight_name;
    "Error: " +:+ exc_msg e;
    nl +:+ "Weight file: " +:+ file;
    nl +:+ "--- Weights in safetensors file (first 20) ---" ] ++
  report_names all_weight_names ++
  [ nl +:+ "--- Model parameters (first 20) ---" ] ++
  report_names model_params ++
  [ rule +:+ nl ].

(** Lines 32-64: the [try] around one weight, whose handler prints the
    report and re-raises. *)
Definition try_load_weight (packed : PackedMapping) (all_weight_names model_params : list string)
    (f : ShardFile) (weight_name : string) : M unit :=
  try_except (load_weight packed f weight_name) AttributeError
    (fun e =>
       for_each (report_lines weight_name e (file_path f) all_weight_names model_params) print;;
       raise e).

(** Lines 29-31: the loop over the files and over the keys of each file. *)
Definition load_files (packed : PackedMapping) (all_weight_names model_params : list string)
    (safetensor_files : list ShardFile) : M unit :=
  for_each safetensor_files (fun f =>
    for_each (keys f) (try_load_weight packed all_weight_names model_params f)).

(** [def load_model(model, path)], run on the parameters of [model].
    [safetensor_files] is what [glob(os.path.join(path, "*.safetensors"))]
    finds in the directory. *)
Definition load_model_body (packed : PackedMapping) (path : string)
    (safetensor_files : list ShardFile) : M unit :=
  match safetensor_files with
  | [] => raise {| exc_type := FileNotFoundError;
                   exc_msg := "No .safetensors files found in " +:+ path |}
  | _ :: _ =>
      let all_weight_names := concat (keys <$> safetensor_files) in
      model_params ← named_parameters;
      load_files packed all_weight_names model_params safetensor_files
  end.

Definition load_model (model : NnModule) (path : string)
    (safetensor_files : list ShardFile) : State * result unit :=
  load_model_body (default [] (packed_modules_mapping model)) path safetensor_files
    {| st_params := parameters model; st_trace := [] |}.

(** The lines printed during a run. *)
Definition printed (trace : list event) : list string :=
  omap (fun ev => match ev with EvPrint line => Some line | _ => None end) trace.

(** The names passed to [get_parameter] during a run. *)
Definition looked_up (trace : list event) : list string :=
  omap (fun ev => match ev with EvGetParameter name => Some name | _ => None end) trace.

(** The parameters on which a loader was called during a run. *)
Definition called (trace : list event) : list string :=
  omap (fun ev => match ev with EvCall name _ _ _ _ => Some name | _ => None end) trace.

(** The keys of all files with their file, in the order [load_model] visits
    them. *)
Definition work (safetensor_files : list ShardFile) : list (ShardFile * string) :=
  f ← safetensor_files; (fun key => (f, key)) <$> keys f.

(** Modelled from the spec: the checkpoint written for a parameter set, which
    [load_model] only reads.  One file holds every parameter's tensor under
    the parameter's name. *)
Definition serialize (path : string) (params : gmap string Param) : ShardFile :=
  {| file_path := path; tensors := prod_map id data <$> map_to_list params |}.

(** ** Inputs of the examples *)

Definition vec (l : list Z) : Tensor :=
  {| t_dtype := Int32; t_shape := [length l]; t_data := l |}.

Definition zeros (shape : list nat) : Tensor :=
  {| t_dtype := Int32; t_shape := shape; t_data := replicate (numel shape) 0%Z |}.

(** A loader in the manner of the fused projections: its shard identifier
    is a required argument, and it writes with one [copy_]. *)
Definition shard_loader : Loader :=
  fun param loaded shard =>
    match shard with
    | Some _ => copy_ param loaded
    | None => Raise {| exc_type := TypeError;
                       exc_msg := "weight_loader() missing 1 required positional argument: 'loaded_shard_id'" |}
    end.

Definition qkv_table : PackedMapping :=
  [ ("q_proj", ("qkv_proj", ShardName "q"));
    ("k_proj", ("qkv_proj", ShardName "k"));
    ("v_proj", ("qkv_proj", ShardName "v")) ].

Definition ex_params : gmap string Param :=
  <["attn.qkv_proj.weight" := {| data := vec [0; 0]%Z; weight_loader := Some shard_loader |}]>
  (<["norm.weight" := {| data := vec [5; 5]%Z; weight_loader := None |}]> ∅).

Definition ex_model : NnModule :=
  {| packed_modules_mapping := Some qkv_table; parameters := ex_params |}.

Definition ex_file : ShardFile :=
  {| file_path := "/ckpt/model.safetensors";
     tensors := [ ("norm.weight", vec [1; 2]%Z);
                  ("attn.q_proj.weight", vec [3; 4]%Z);
                  ("q_proj.q_proj", vec [7; 8]%Z);
                  ("head.weight", vec [9]%Z) ] |}.

Definition ex_state : State := {| st_params := ex_params; st_trace := [] |}.

(** A table whose second and third rules both match ["attn.q_proj.weight"],
    and parameters among which that key is also a name. *)
Definition overlap_table : PackedMapping :=
  [ ("k_proj", ("qkv_proj", ShardName "k"));
    ("q_proj", ("qkv_proj", ShardName "q"));
    ("proj", ("fused", ShardIndex 0)) ].

Definition overlap_state : State :=
  {| st_params :=
       <["attn.q_proj.weight" := {| data := vec [6; 6]%Z; weight_loader := None |}]> ex_params;
     st_trace := [] |}.

(** Parameters among which ["attn.q_proj.weight"] is a name but the name
    the table rewrites it to is not. *)
Definition unfused_state : State :=
  {| st_params := {["attn.q_proj.weight" := {| data := vec [6; 6]%Z; weight_loader := None |}]};
     st_trace := [] |}.

(** A loader in the manner of a vocabulary-parallel embedding on rank 0:
    it is called with two arguments and copies the leading part of the
    loaded tensor that fits the parameter. *)
Definition rank0_loader : Loader :=
  fun param loaded _ =>
    copy_ param {| t_dtype := t_dtype loaded;
                   t_shape := t_shape param;
                   t_data := take (numel (t_shape param)) (t_data loaded) |}.

Definition embed_state : State :=
  {| st_params := {["embed.weight" := {| data := vec [0; 0]%Z;
                                         weight_loader := Some rank0_loader |}]};
     st_trace := [] |}.

Definition embed_file : ShardFile :=
  {| file_path := "/ckpt/model.safetensors";
     tensors := [ ("embed.weight", vec [1; 2; 3; 4]%Z) ] |}.

(** A [4, 4] tensor for a parameter declared [4, 8]. *)
Definition wide_model : NnModule :=
  {| packed_modules_mapping := None;
     parameters := {["w" := {| data := zeros [4; 8]; weight_loader := None |}]} |}.

Definition narrow_file : ShardFile :=
  {| file_path := "/ckpt/model.safetensors"; tensors := [ ("w", zeros [4; 4]) ] |}.

(** The parameters of [ex_model] under an empty packing table. *)
Definition plain_model : NnModule :=
  {| packed_modules_mapping := None; parameters := ex_params |}.

(** A model with one default-loaded parameter, and the same parameter with
    the value that was serialized. *)
Definition norm_model : NnModule :=
  {| packed_modules_mapping := None;
     parameters := {["norm.weight" := {| data := vec [5; 5]%Z; weight_loader := None |}]} |}.

Definition norm_saved : gmap string Param :=
  {["norm.weight" := {| data := vec [1; 2]%Z; weight_loader := None |}]}.

(** A loader in the manner of a vocabulary-parallel embedding on rank 1 of
    2: it narrows the loaded tensor to the second of two parts of the
    parameter's size, which raises when the tensor is not that long. *)
Definition rank1_loader : Loader :=
  fun param loaded _ =>
    let n := numel (t_shape param) in
    if length (t_data loaded) <? 2 * n
    then Raise {| exc_type := RuntimeError;
                  exc_msg := "start + length exceeds dimension size" |}
    else copy_ param {| t_dtype := t_dtype loaded;
                        t_shape := t_shape param;
                        t_data := take n (drop n (t_data loaded)) |}.

Definition rank1_model : NnModule :=
  {| packed_modules_mapping := None;
     parameters := {["embed.weight" := {| data := vec [1; 2]%Z;
                                          weight_loader := Some rank1_loader |}]} |}.

(** The name that line 36 or line 42 hands to [get_parameter] for a key:
    the key rewritten by the first rule whose pattern occurs in it, or the
    key itself when no pattern does. *)
Fixpoint target_name (packed : PackedMapping) (weight_name : string) : string :=
  match packed with
  | (k, (v, _)) :: rest =>
      if PyStr.contains k weight_name
      then PyStr.replace weight_name k v
      else target_name rest weight_name
  | [] => weight_name
  end.

(** The shard identifier that line 39 hands to the loader for a key: that
    of the first rule whose pattern occurs in it, and none when no pattern
    does. *)
Fixpoint target_shard (packed : PackedMapping) (weight_name : string) : option shard_id :=
  match packed with
  | (k, (_, shard)) :: rest =>
      if PyStr.contains k weight_name then Some shard else target_shard rest weight_name
  | [] => None
  end.

(** What one key leaves in the parameters: the [data] of the parameter of
    [target_name] becomes what line 39 or line 44 obtains for the key's
    tensor, from the attached loader called with the shard of
    [target_shard], or from [copy_] when no rule matches the key and no
    loader is attached.  A key whose name is no parameter, whose rule finds
    no loader attached, or whose loader raises, leaves the parameters as
    they are.  It is the term of comparison for what a load has written. *)
Definition written_by (packed : PackedMapping) (params : gmap string Param)
    (fk : ShardFile * string) : gmap string Param :=
  let name := target_name packed fk.2 in
  match params !! name, assoc fk.2 (tensors fk.1) with
  | Some q, Some t =>
      match weight_loader q, target_shard packed fk.2 with
      | Some wl, sid =>
          match wl (data q) t sid with
          | Ok d => <[name := {| data := d; weight_loader := Some wl |}]> params
          | Raise _ => params
          end
      | None, None =>
          match copy_ (data q) t with
          | Ok d => <[name := {| data := d; weight_loader := None |}]> params
          | Raise _ => params
          end
      | None, Some _ => params
      end
  | _, _ => params
  end.

(** A file that holds no tensor. *)
Definition empty_file : ShardFile :=
  {| file_path := "/ckpt/model-00001.safetensors"; tensors := [] |}.

(** Two files that both hold ["norm.weight"]. *)
Definition norm_file_old : ShardFile :=
  {| file_path := "/ckpt/model-00001.safetensors";
     tensors := [ ("norm.weight", vec [1; 2]%Z) ] |}.

Definition norm_file_new : ShardFile :=
  {| file_path := "/ckpt/model-00002.safetensors";
     tensors := [ ("norm.weight", vec [3; 4]%Z) ] |}.

(** Two default-loaded parameters and a checkpoint that holds one of them
    in each of two files. *)
Definition pair_model : NnModule :=
  {| packed_modules_mapping := None;
     parameters := <["a.weight" := {| data := vec [0; 0]%Z; weight_loader := None |}]>
                   {["b.weight" := {| data := vec [0]%Z; weight_loader := None |}]} |}.

Definition pair_file_a : ShardFile :=
  {| file_path := "/ckpt/model-00001.safetensors";
     tensors := [ ("a.weight", vec [1; 2]%Z) ] |}.

Definition pair_file_b : ShardFile :=
  {| file_path := "/ckpt/model-00002.safetensors";
     tensors := [ ("b.weight", vec [3]%Z) ] |}.

(** A file with the unfused projections of one attention layer. *)
Definition qkv_file : ShardFile :=
  {| file_path := "/ckpt/model.safetensors";
     tensors := [ ("attn.q_proj.weight", vec [3; 4]%Z);
                  ("attn.k_proj.weight", vec [5; 6]%Z) ] |}.

(** ** Examples *)

Example replace_twice :
  PyStr.replace "q_proj.q_proj" "q_proj" "qkv_proj" = "qkv_proj.qkv_proj".
Proof. reflexivity. Qed.

Example replace_no_overlap : PyStr.replace "aaa" "aa" "b" = "ba".
Proof. reflexivity. Qed.

Example replace_empty_pattern : PyStr.replace "abc" EmptyString "-" = "-a-b-c-".
Proof. reflexivity. Qed.

Example replace_first_once :
  PyStr.replace_first "q_proj.q_proj" "q_proj" "qkv_proj" = "qkv_proj.q_proj".
Proof. reflexivity. Qed.

Example copy_same_shape :
  copy_ {| t_dtype := Int32; t_shape := [2; 2]; t_data := [0; 0; 0; 0]%Z |}
        {| t_dtype := Int32; t_shape := [2; 2]; t_data := [1; 2; 3; 4]%Z |}
  = Ok {| t_dtype := Int32; t_shape := [2; 2]; t_data := [1; 2; 3; 4]%Z |}.
Proof. reflexivity. Qed.

Example copy_broadcasts_row :
  copy_ {| t_dtype := Int32; t_shape := [2; 3]; t_data := [0; 0; 0; 0; 0; 0]%Z |}
        {| t_dtype := Int32; t_shape := [3]; t_data := [7; 8; 9]%Z |}
  = Ok {| t_dtype := Int32; t_shape := [2; 3]; t_data := [7; 8; 9; 7; 8; 9]%Z |}.
Proof. reflexivity. Qed.

Example copy_broadcasts_column :
  copy_ {| t_dtype := Int32; t_shape := [2; 3]; t_data := [0; 0; 0; 0; 0; 0]%Z |}
        {| t_dtype := Int32; t_shape := [2; 1]; t_data := [7; 8]%Z |}
  = Ok {| t_dtype := Int32; t_shape := [2; 3]; t_data := [7; 7; 7; 8; 8; 8]%Z |}.
Proof. reflexivity. Qed.

Example copy_converts_dtype :
  copy_ {| t_dtype := Int8; t_shape := [2]; t_data := [0; 0]%Z |}
        {| t_dtype := Int32; t_shape := [2]; t_data := [200; -3]%Z |}
  = Ok {| t_dtype := Int8; t_shape := [2]; t_data := [-56; -3]%Z |}.
Proof. reflexivity. Qed.

(** ** Facts about the string operations *)

Section PyStrFacts.
Import PyStr.

Lemma str_drop_0 s : drop 0 s = s.
Proof. by destruct s. Qed.

Lemma str_take_0 s : take 0 s = EmptyString.
Proof. by destruct s. Qed.

Lemma str_take_S c s n : take (S n) (String c s) = String c (take n s).
Proof. reflexivity. Qed.

Lemma str_app_cons c s1 s2 : String c s1 +:+ s2 = String c (s1 +:+ s2).
Proof. reflexivity. Qed.

Lemma str_app_nil s : EmptyString +:+ s = s.
Proof. reflexivity. Qed.

Lemma str_take_drop n s : take n s +:+ drop n s = s.
Proof.
  revert s; induction n as [|n IH]; intros [|c s]; try reflexivity.
  rewrite str_take_S, str_app_cons. cbn [drop]. by rewrite IH.
Qed.

Lemma prefix_nonempty_cons c k s :
  String.prefix (String c k) s = true → ∃ s', s = String c s'.
Proof.
  destruct s as [|b s]; simpl; [done|].
  destruct (ascii_dec c b) as [->|]; [eauto|done].
Qed.

(** [contains] and [find] agree. *)
Lemma contains_find k s : contains k s = true ↔ is_Some (find k s).
Proof.
  induction s as [|c s IH]; cbn [contains find].
  - destruct (String.prefix k EmptyString); cbn [orb].
    + split; [eauto|done].
    + split; [done|]. by intros [? ?].
  - destruct (String.prefix k (String c s)); cbn [orb].
    + split; [eauto|done].
    + rewrite IH. destruct (find k s); cbn.
      * split; eauto.
      * split; by intros [? ?].
Qed.

Lemma contains_false_find k s : contains k s = false ↔ find k s = None.
Proof.
  pose proof (contains_find k s) as H.
  destruct (contains k s), (find k s) as [i|]; split; intros; try done.
  - destruct H as [H _]. by destruct (H eq_refl).
  - destruct H as [_ H]. by specialize (H (ex_intro _ i eq_refl)).
Qed.

(** [find] returns the leftmost position at which [k] starts. *)
Lemma find_leftmost k s i :
  find k s = Some i →
  String.prefix k (drop i s) = true ∧
  ∀ j, j < i → String.prefix k (drop j s) = false.
Proof.
  revert i; induction s as [|c s IH]; intros i; cbn [find].
  - destruct (String.prefix k EmptyString) eqn:E; [|done].
    intros [= <-]. split; [done|]. intros j Hj; lia.
  - destruct (String.prefix k (String c s)) eqn:E.
    + intros [= <-]. split; [done|]. intros j Hj; lia.
    + destruct (find k s) as [i'|]; [|done]. cbn. intros [= <-].
      destruct (IH i' eq_refl) as [H1 H2]. split; [done|].
      intros [|j] Hj; [done|]. cbn [drop]. apply H2. lia.
Qed.

Lemma replace_from_skip n k v s :
  replace_from n k v s = replace_from 0 k v (drop n s).
Proof.
  revert s; induction n as [|n IH]; intros s.
  - by rewrite str_drop_0.
  - destruct s as [|c s]; [done|]. simpl. apply IH.
Qed.

(** At an occurrence of [k] the scan emits [v] and resumes after it. *)
Lemma replace_from_hit c k v s :
  String.prefix (String c k) s = true →
  replace_from 0 (String c k) v s
  = v +:+ replace_from 0 (String c k) v (drop (String.length (String c k)) s).
Proof.
  intros H. destruct (prefix_nonempty_cons _ _ _ H) as [s' ->].
  cbn [replace_from]. rewrite H. f_equal.
  rewrite replace_from_skip. simpl. by rewrite Nat.sub_0_r.
Qed.

Lemma replace_from_miss k v s : find k s = None → replace_from 0 k v s = s.
Proof.
  induction s as [|c s IH]; [done|]. cbn [find replace_from].
  destruct (String.prefix k (String c s)); [done|].
  destruct (find k s); [done|]. intros _. by rewrite IH.
Qed.

Lemma replace_from_find c k v s i :
  find (String c k) s = Some i →
  replace_from 0 (String c k) v s
  = take i s +:+ v +:+
    replace_from 0 (String c k) v (drop (i + String.length (String c k)) s).
Proof.
  revert i; induction s as [|b s IH]; intros i; [done|].
  cbn [find].
  destruct (String.prefix (String c k) (String b s)) eqn:E.
  - intros [= <-]. rewrite str_take_0. by apply replace_from_hit.
  - destruct (find (String c k) s) as [i'|]; [|done]. simpl fmap. intros [= <-].
    cbn [replace_from]. rewrite E. rewrite (IH i' eq_refl).
    rewrite str_take_S. reflexivity.
Qed.

(** [replace] rewrites the leftmost occurrence and goes on in what follows
    it. *)
Lemma replace_unfold s k v i :
  k ≠ EmptyString →
  find k s = Some i →
  replace s k v = take i s +:+ v +:+ replace (drop (i + String.length k) s) k v.
Proof.
  destruct k as [|c k]; [done|]. intros _. apply replace_from_find.
Qed.

Lemma replace_absent s k v : contains k s = false → replace s k v = s.
Proof.
  intros H. apply contains_false_find in H.
  destruct k as [|c k]; [by destruct s|]. by apply replace_from_miss.
Qed.

(** Where the pattern occurs once, replacing every occurrence and
    replacing the first one are the same. *)
Lemma replace_once s k v i :
  k ≠ EmptyString →
  find k s = Some i →
  contains k (drop (i + String.length k) s) = false →
  replace s k v = replace_first s k v.
Proof.
  intros Hk Hi Hrest. rewrite (replace_unfold _ _ _ _ Hk Hi).
  unfold replace_first. rewrite Hi. by rewrite replace_absent.
Qed.

End PyStrFacts.

(** ** Facts about [copy_] *)

Lemma align_same (shape : list nat) : align (length shape) shape = shape.
Proof. unfold align. by rewrite Nat.sub_diag. Qed.

Lemma broadcastable_aligned_refl (shape : list nat) :
  broadcastable_aligned shape shape = true.
Proof.
  induction shape as [|d shape IH]; [done|]. cbn [broadcastable_aligned].
  by rewrite Nat.eqb_refl, IH.
Qed.

Lemma broadcastable_refl (shape : list nat) : broadcastable shape shape = true.
Proof.
  unfold broadcastable. rewrite align_same, broadcastable_aligned_refl.
  by rewrite Nat.leb_refl.
Qed.

Lemma src_offset_same (shape : list nat) (i : nat) :
  i < numel shape → src_offset shape shape i = i.
Proof.
  revert i; induction shape as [|d shape IH]; intros i; cbn [numel foldr src_offset].
  - lia.
  - fold (numel shape). intros Hi.
    assert (numel shape ≠ 0) as Hn by (intros E; rewrite E in Hi; lia).
    rewrite IH by (by apply Nat.mod_upper_bound).
    destruct (Nat.eqb_spec d 1) as [->|_].
    + rewrite Nat.mod_small by lia. lia.
    + pose proof (Nat.div_mod i (numel shape) Hn). lia.
Qed.

Lemma nth_seq_id (l : list Z) : (fun i => nth i l 0%Z) <$> seq 0 (length l) = l.
Proof.
  induction l as [|x l IH]; [done|].
  cbn [length seq fmap list_fmap]. f_equal.
  rewrite <- fmap_S_seq, <- list_fmap_compose. exact IH.
Qed.

Lemma expand_same (shape : list nat) (l : list Z) :
  length l = numel shape → expand shape shape l = l.
Proof.
  intros Hl. unfold expand. rewrite align_same.
  etransitivity; [|apply nth_seq_id]. rewrite Hl.
  apply list_fmap_ext. intros j i Hi.
  apply lookup_seq in Hi as [-> Hi]. by rewrite src_offset_same.
Qed.

Lemma convert_same (d : dtype) (l : list Z) : convert d d <$> l = l.
Proof.
  etransitivity; [|apply list_fmap_id]. apply list_fmap_ext. intros i x _.
  unfold convert. by rewrite decide_True.
Qed.

(** Between tensors of one shape and one element type, [copy_] is exact. *)
Lemma copy_exact (dst src : Tensor) :
  t_shape dst = t_shape src →
  t_dtype dst = t_dtype src →
  tensor_wf src →
  copy_ dst src = Ok src.
Proof.
  intros Hs Hd Hwf. unfold copy_.
  rewrite Hs, Hd, broadcastable_refl, expand_same, convert_same by done.
  by destruct src.
Qed.

Lemma copy_not_broadcastable (dst src : Tensor) :
  broadcastable (t_shape dst) (t_shape src) = false →
  ∃ e, copy_ dst src = Raise e ∧ exc_type e = RuntimeError.
Proof. intros H. unfold copy_. rewrite H. eauto. Qed.

(** A source that can be copied has the destination's shape up to
    dimensions of size 1. *)
Lemma broadcastable_same_rank (dst src : list nat) :
  length src = length dst →
  broadcastable dst src = true →
  Forall2 (fun d s => s = d ∨ s = 1) dst src.
Proof.
  intros Hlen. unfold broadcastable, align. rewrite Hlen, Nat.sub_diag, Nat.leb_refl.
  cbn [replicate app andb]. clear Hlen. revert src.
  induction dst as [|d dst IH]; intros [|s src]; cbn [broadcastable_aligned]; try done.
  intros [H1 H2]%andb_prop. constructor; [|by apply IH].
  apply orb_prop in H1 as [H1|H1]; apply Nat.eqb_eq in H1; auto.
Qed.

(** ** The control flow of the loops *)

Lemma bind_run {A B} (m : M A) (k : A → M B) (s : State) :
  (m ≫= k) s = match m s with
               | (s', Ok a) => k a s'
               | (s', Raise e) => (s', Raise e)
               end.
Proof. reflexivity. Qed.

Lemma for_each_cons {A} (x : A) (l : list A) (body : A → M unit) (s : State) :
  for_each (x :: l) body s = match body x s with
                             | (s', Ok _) => for_each l body s'
                             | (s', Raise e) => (s', Raise e)
                             end.
Proof. reflexivity. Qed.

Lemma for_each_app {A} (l1 l2 : list A) (body : A → M unit) (s : State) :
  for_each (l1 ++ l2) body s = match for_each l1 body s with
                               | (s', Ok _) => for_each l2 body s'
                               | (s', Raise e) => (s', Raise e)
                               end.
Proof.
  revert s; induction l1 as [|x l1 IH]; intros s; [done|].
  rewrite <- app_comm_cons, !for_each_cons.
  destruct (body x s) as [s1 [[]|e]]; [apply IH|done].
Qed.

(** A loop that raises ran a prefix of its list to the end and raised on
    the next element; nothing after that element ran. *)
Lemma for_each_raise_inv {A} (l : list A) (body : A → M unit) (s s' : State) (e : PyExc) :
  for_each l body s = (s', Raise e) →
  ∃ l1 x l2 s1,
    l = l1 ++ x :: l2 ∧ for_each l1 body s = (s1, Ok tt) ∧ body x s1 = (s', Raise e).
Proof.
  revert s; induction l as [|x l IH]; intros s; [done|].
  rewrite for_each_cons. destruct (body x s) as [s1 [[]|e1]] eqn:Hx.
  - intros (l1 & y & l2 & s2 & -> & H1 & H2)%IH.
    exists (x :: l1), y, l2, s2. split; [done|]. split; [|done].
    by rewrite for_each_cons, Hx.
  - intros [= -> ->]. by exists [], x, l, s.
Qed.

(** The two nested loops of [load_model] visit the keys of [work]. *)
Lemma for_each_work (files : list ShardFile) (body : ShardFile → string → M unit) (s : State) :
  for_each files (fun f => for_each (keys f) (body f)) s
  = for_each (work files) (fun fk => body fk.1 fk.2) s.
Proof.
  unfold work. revert s; induction files as [|f files IH]; intros s; [done|].
  cbn [mbind list_bind]. rewrite for_each_cons, for_each_app.
  assert (∀ ks t, for_each ((fun key => (f, key)) <$> ks) (fun fk => body fk.1 fk.2) t
                  = for_each ks (body f) t) as Hf.
  { induction ks as [|key ks IHk]; intros t; [done|].
    rewrite fmap_cons, !for_each_cons. cbn [fst snd].
    destruct (body f key t) as [t1 [[]|e]]; [apply IHk|done]. }
  rewrite Hf. destruct (for_each (keys f) (body f) s) as [s1 [[]|e]]; [apply IH|done].
Qed.

Lemma elem_of_work (files : list ShardFile) (f : ShardFile) (key : string) :
  (f, key) ∈ work files ↔ f ∈ files ∧ key ∈ keys f.
Proof.
  unfold work. rewrite list_elem_of_bind. split.
  - intros (g & Hin & Hg). apply list_elem_of_fmap in Hin as (k & [= -> ->] & Hk). done.
  - intros [Hf Hk]. exists f. split; [|done]. apply list_elem_of_fmap. eauto.
Qed.

(** ** One weight *)

Lemma assoc_keys (f : ShardFile) (key : string) :
  key ∈ keys f → is_Some (assoc key (tensors f)).
Proof.
  unfold keys. induction (tensors f) as [|[k t] l IH]; cbn [assoc fmap list_fmap fst].
  - by intros ?%elem_of_nil.
  - intros Hin. destruct (decide (key = k)); [by eauto|].
    apply IH. by apply elem_of_cons in Hin as [?|?].
Qed.

Lemma assoc_NoDup (l : list (string * Tensor)) (k : string) (t : Tensor) :
  NoDup l.*1 → (k, t) ∈ l → assoc k l = Some t.
Proof.
  induction l as [|[k' t'] l IH]; cbn [assoc fmap list_fmap fst].
  - by intros _ ?%elem_of_nil.
  - intros [Hk' Hl]%NoDup_cons [[= -> ->]|Hin]%elem_of_cons.
    + by rewrite decide_True.
    + rewrite decide_False; [by apply IH|].
      intros ->. apply Hk'. apply list_elem_of_fmap. by exists (k', t).
Qed.

(** The packed branch, step by step. *)
Lemma load_packed_run (f : ShardFile) (key k v : string) (shard : shard_id) (s : State) :
  load_packed f key k v shard s =
  let name := PyStr.replace key k v in
  let s1 := log (EvGetParameter name) s in
  match st_params s !! name with
  | None => (s1, Raise {| exc_type := AttributeError;
                          exc_msg := "has no attribute `" +:+ name +:+ "`" |})
  | Some p =>
      match weight_loader p with
      | None => (s1, Raise {| exc_type := AttributeError;
                              exc_msg := "'Parameter' object has no attribute 'weight_loader'" |})
      | Some wl =>
          match assoc key (tensors f) with
          | None => (s1, Raise {| exc_type := SafetensorError;
                                  exc_msg := "File does not contain tensor " +:+ key |})
          | Some t => call name true wl p t (Some shard) s1
          end
      end
  end.
Proof.
  unfold load_packed. rewrite bind_run. unfold get_parameter.
  destruct (st_params s !! PyStr.replace key k v) as [p|]; [|done].
  rewrite bind_run. unfold getattr_weight_loader.
  destruct (weight_loader p) as [wl|]; [|done].
  cbn [ret]. rewrite bind_run. unfold get_tensor.
  by destruct (assoc key (tensors f)).
Qed.

(** The [else] branch, step by step. *)
Lemma load_unpacked_run (f : ShardFile) (key : string) (s : State) :
  load_unpacked f key s =
  let s1 := log (EvGetParameter key) s in
  match st_params s !! key with
  | None => (s1, Raise {| exc_type := AttributeError;
                          exc_msg := "has no attribute `" +:+ key +:+ "`" |})
  | Some p =>
      match assoc key (tensors f) with
      | None => (s1, Raise {| exc_type := SafetensorError;
                              exc_msg := "File does not contain tensor " +:+ key |})
      | Some t =>
          call key (bool_decide (is_Some (weight_loader p)))
            (default default_weight_loader_callable (weight_loader p)) p t None s1
      end
  end.
Proof.
  unfold load_unpacked. rewrite bind_run. unfold get_parameter.
  destruct (st_params s !! key) as [p|]; [|done].
  rewrite bind_run. unfold get_tensor.
  by destruct (assoc key (tensors f)).
Qed.

(** Rules whose pattern does not occur in the key are passed over. *)
Lemma load_weight_skip (skipped rest : PackedMapping) (f : ShardFile) (key : string) :
  Forall (fun r => PyStr.contains r.1 key = false) skipped →
  load_weight (skipped ++ rest) f key = load_weight rest f key.
Proof.
  induction 1 as [|[k [v shard]] skipped Hk _ IH]; [done|].
  cbn [app load_weight]. cbn [fst] in Hk. by rewrite Hk.
Qed.

(** The table decides between the two branches. *)
Lemma load_weight_cases (packed : PackedMapping) (f : ShardFile) (key : string) :
  (Forall (fun r => PyStr.contains r.1 key = false) packed ∧
   load_weight packed f key = load_unpacked f key) ∨
  (∃ skipped k v shard rest,
     packed = skipped ++ (k, (v, shard)) :: rest ∧
     Forall (fun r => PyStr.contains r.1 key = false) skipped ∧
     PyStr.contains k key = true ∧
     load_weight packed f key = load_packed f key k v shard).
Proof.
  induction packed as [|[k [v shard]] packed IH]; [by left|].
  cbn [load_weight]. destruct (PyStr.contains k key) eqn:Hk.
  - right. by exists [], k, v, shard, packed.
  - destruct IH as [[H1 H2]|(skipped & k' & v' & shard' & rest & -> & H1 & H2 & H3)].
    + left. split; [by constructor|done].
    + right. exists ((k, (v, shard)) :: skipped), k', v', shard', rest.
      split; [done|]. split; [by constructor|done].
Qed.

(** What a loader call does to the state. *)
Lemma call_effect (name : string) (custom : bool) (wl : Loader) (p : Param)
    (t : Tensor) (shard : option shard_id) (s s' : State) (r : result unit) :
  call name custom wl p t shard s = (s', r) →
  st_trace s' = st_trace s ++ [EvCall name custom (data p) t shard] ∧
  ((∃ d, wl (data p) t shard = Ok d ∧ r = Ok tt ∧
         st_params s' = <[name := {| data := d; weight_loader := weight_loader p |}]> (st_params s)) ∨
   (∃ e, wl (data p) t shard = Raise e ∧ r = Raise e ∧ st_params s' = st_params s)).
Proof.
  unfold call. destruct (wl (data p) t shard) as [d|e]; intros [= <- <-].
  - split; [done|]. left. by exists d.
  - split; [done|]. right. by exists e.
Qed.

(** The effect of one weight on the state: the events it adds hold no
    [print]; it writes at most the parameter its loader was called on; and
    when it raises, no parameter has changed. *)
Lemma load_weight_effect (packed : PackedMapping) (f : ShardFile) (key : string)
    (s s' : State) (r : result unit) :
  load_weight packed f key s = (s', r) →
  ∃ evs, st_trace s' = st_trace s ++ evs ∧
         printed evs = [] ∧
         (∀ name, name ∉ called evs → st_params s' !! name = st_params s !! name) ∧
         (∀ e, r = Raise e → st_params s' = st_params s).
Proof.
  assert (∀ name custom wl p t shard evs0,
            printed evs0 = [] → called evs0 = [] →
            call name custom wl p t shard
              {| st_params := st_params s; st_trace := st_trace s ++ evs0 |} = (s', r) →
            ∃ evs, st_trace s' = st_trace s ++ evs ∧ printed evs = [] ∧
                   (∀ name, name ∉ called evs → st_params s' !! name = st_params s !! name) ∧
                   (∀ e, r = Raise e → st_params s' = st_params s)) as Hcall.
  { intros name custom wl p t shard evs0 Hp Hc [Ht Hr]%call_effect.
    cbn [st_trace st_params] in Ht, Hr.
    exists (evs0 ++ [EvCall name custom (data p) t shard]).
    split; [by rewrite Ht, app_assoc|].
    split; [unfold printed in *; by rewrite omap_app, Hp|].
    unfold called in *. rewrite omap_app, Hc. cbn.
    destruct Hr as [(d & _ & -> & ->)|(e & _ & -> & ->)].
    - split; [|done]. intros n Hn. apply lookup_insert_ne. set_solver.
    - split; [done|]. by intros e' [= <-]. }
  assert (∀ name e, (log (EvGetParameter name) s, @Raise unit e) = (s', r) →
            ∃ evs, st_trace s' = st_trace s ++ evs ∧ printed evs = [] ∧
                   (∀ name, name ∉ called evs → st_params s' !! name = st_params s !! name) ∧
                   (∀ e, r = Raise e → st_params s' = st_params s)) as Hraise.
  { intros name e [= <- <-]. by exists [EvGetParameter name]. }
  destruct (load_weight_cases packed f key)
    as [[_ ->]|(skipped & k & v & shard & rest & _ & _ & _ & ->)].
  - rewrite load_unpacked_run. cbn zeta.
    destruct (st_params s !! key) as [p|]; [|apply Hraise].
    destruct (assoc key (tensors f)) as [t|]; [|apply Hraise].
    by apply (Hcall _ _ _ _ _ _ [EvGetParameter key]).
  - rewrite load_packed_run. cbn zeta.
    destruct (st_params s !! PyStr.replace key k v) as [p|]; [|apply Hraise].
    destruct (weight_loader p) as [wl|]; [|apply Hraise].
    destruct (assoc key (tensors f)) as [t|]; [|apply Hraise].
    by apply (Hcall _ _ _ _ _ _ [EvGetParameter (PyStr.replace key k v)]).
Qed.

(** ** The [try] around one weight *)

Lemma print_lines_run (lines : list string) (s : State) :
  for_each lines print s
  = ({| st_params := st_params s; st_trace := st_trace s ++ (EvPrint <$> lines) |}, Ok tt).
Proof.
  revert s; induction lines as [|line lines IH]; intros s.
  - cbn [for_each ret fmap list_fmap]. rewrite app_nil_r. by destruct s.
  - rewrite for_each_cons. cbn [print emit]. rewrite IH. cbn [log st_params st_trace].
    by rewrite <- app_assoc.
Qed.

Lemma printed_prints (lines : list string) : printed (EvPrint <$> lines) = lines.
Proof. induction lines as [|line lines IH]; [done|]. cbn. by f_equal. Qed.

Lemma looked_up_prints (lines : list string) : looked_up (EvPrint <$> lines) = [].
Proof. by induction lines. Qed.

Lemma called_prints (lines : list string) : called (EvPrint <$> lines) = [].
Proof. by induction lines. Qed.

(** An [AttributeError] is reported and raised again; anything else passes
    through the [try] as it is. *)
Lemma try_load_weight_run (packed : PackedMapping) (names params : list string)
    (f : ShardFile) (key : string) (s : State) :
  try_load_weight packed names params f key s =
  match load_weight packed f key s with
  | (s1, Raise e) =>
      if decide (exc_type e = AttributeError)
      then ({| st_params := st_params s1;
               st_trace := st_trace s1
                           ++ (EvPrint <$> report_lines key e (file_path f) names params) |},
            Raise e)
      else (s1, Raise e)
  | (s1, Ok u) => (s1, Ok u)
  end.
Proof.
  unfold try_load_weight, try_except.
  destruct (load_weight packed f key s) as [s1 [u|e]]; [done|].
  destruct (decide (exc_type e = AttributeError)); [|done].
  rewrite bind_run, print_lines_run. reflexivity.
Qed.

Lemma try_load_weight_effect (packed : PackedMapping) (names params : list string)
    (f : ShardFile) (key : string) (s s' : State) (r : result unit) :
  try_load_weight packed names params f key s = (s', r) →
  ∃ evs, st_trace s' = st_trace s ++ evs ∧
         (∀ name, name ∉ called evs → st_params s' !! name = st_params s !! name) ∧
         (∀ e, r = Raise e → st_params s' = st_params s) ∧
         printed evs = match r with
                       | Raise e =>
                           if decide (exc_type e = AttributeError)
                           then report_lines key e (file_path f) names params
                           else []
                       | Ok _ => []
                       end.
Proof.
  rewrite try_load_weight_run.
  destruct (load_weight packed f key s) as [s1 [u|e]] eqn:Hrun;
    apply load_weight_effect in Hrun as (evs & Ht & Hp & Hc & Hr).
  - intros [= <- <-]. by exists evs.
  - destruct (decide (exc_type e = AttributeError)) as [He|He]; intros [= <- <-].
    + exists (evs ++ (EvPrint <$> report_lines key e (file_path f) names params)).
      cbn [st_trace st_params]. rewrite Ht, <- app_assoc.
      unfold called, printed in *. rewrite !omap_app, Hp.
      fold (called (EvPrint <$> report_lines key e (file_path f) names params)).
      fold (printed (EvPrint <$> report_lines key e (file_path f) names params)).
      rewrite called_prints, printed_prints, app_nil_r, decide_True by done.
      done.
    + exists evs. by rewrite decide_False.
Qed.

(** ** Resolution of a key *)

(** The packed branch looks up the rewritten name and nothing else, and
    any loader call it makes is on that name with the rule's shard. *)
Lemma load_packed_events (f : ShardFile) (key k v : string) (shard : shard_id) (s : State) :
  ∃ evs,
    st_trace (load_packed f key k v shard s).1 = st_trace s ++ evs ∧
    looked_up evs = [PyStr.replace key k v] ∧
    ∀ name custom storage loaded sh,
      EvCall name custom storage loaded sh ∈ evs →
      name = PyStr.replace key k v ∧ custom = true ∧ sh = Some shard.
Proof.
  rewrite load_packed_run. cbn zeta. set (name := PyStr.replace key k v).
  assert (∃ evs, st_trace (log (EvGetParameter name) s) = st_trace s ++ evs ∧
                 looked_up evs = [name] ∧
                 ∀ name' custom storage loaded sh,
                   EvCall name' custom storage loaded sh ∈ evs →
                   name' = name ∧ custom = true ∧ sh = Some shard) as Hlookup.
  { exists [EvGetParameter name]. split; [done|]. split; [done|].
    intros ????? [?|?%elem_of_nil]%elem_of_cons; done. }
  destruct (st_params s !! name) as [p|]; [|done].
  destruct (weight_loader p) as [wl|]; [|done].
  destruct (assoc key (tensors f)) as [t|]; [|done].
  destruct (call name true wl p t (Some shard) (log (EvGetParameter name) s))
    as [s' r] eqn:Hcall.
  apply call_effect in Hcall as [Ht _]. cbn [fst].
  exists [EvGetParameter name; EvCall name true (data p) t (Some shard)].
  split; [by rewrite Ht; cbn; rewrite <- app_assoc|]. split; [done|].
  intros ????? [?|[[= -> -> -> -> ->]|?%elem_of_nil]%elem_of_cons]%elem_of_cons; done.
Qed.

Lemma load_weight_first_match (skipped rest : PackedMapping) (k v : string)
    (shard : shard_id) (f : ShardFile) (key : string) :
  Forall (fun r => PyStr.contains r.1 key = false) skipped →
  PyStr.contains k key = true →
  load_weight (skipped ++ (k, (v, shard)) :: rest) f key = load_packed f key k v shard.
Proof.
  intros Hskip Hk. rewrite load_weight_skip by done. cbn [load_weight]. by rewrite Hk.
Qed.

(** C4: the rules are tried in the order of the table, and the first one
    whose pattern occurs in the key decides the name that is looked up and
    the shard identifier handed to the loader, whatever rules follow it and
    whatever parameter bears the key's own name. *)
Theorem first_matching_rule_decides (skipped rest : PackedMapping) (k v : string)
    (shard : shard_id) (f : ShardFile) (key : string) (s : State) :
  Forall (fun r => PyStr.contains r.1 key = false) skipped →
  PyStr.contains k key = true →
  load_weight (skipped ++ (k, (v, shard)) :: rest) f key s = load_packed f key k v shard s ∧
  ∃ evs,
    st_trace (load_weight (skipped ++ (k, (v, shard)) :: rest) f key s).1 = st_trace s ++ evs ∧
    looked_up evs = [PyStr.replace key k v] ∧
    ∀ name custom storage loaded sh,
      EvCall name custom storage loaded sh ∈ evs →
      name = PyStr.replace key k v ∧ custom = true ∧ sh = Some shard.
Proof.
  intros Hskip Hk. rewrite load_weight_first_match by done.
  split; [done|]. apply load_packed_events.
Qed.

Lemma first_matching_rule_decides_witness :
  load_weight overlap_table ex_file "attn.q_proj.weight" overlap_state
  = load_packed ex_file "attn.q_proj.weight" "q_proj" "qkv_proj" (ShardName "q") overlap_state ∧
  ∃ evs,
    st_trace (load_weight overlap_table ex_file "attn.q_proj.weight" overlap_state).1
    = st_trace overlap_state ++ evs ∧
    looked_up evs = [PyStr.replace "attn.q_proj.weight" "q_proj" "qkv_proj"] ∧
    ∀ name custom storage loaded sh,
      EvCall name custom storage loaded sh ∈ evs →
      name = PyStr.replace "attn.q_proj.weight" "q_proj" "qkv_proj" ∧
      custom = true ∧ sh = Some (ShardName "q").
Proof.
  apply (first_matching_rule_decides
           [("k_proj", ("qkv_proj", ShardName "k"))] [("proj", ("fused", ShardIndex 0))]
           "q_proj" "qkv_proj" (ShardName "q") ex_file "attn.q_proj.weight" overlap_state).
  - repeat constructor.
  - reflexivity.
Defined.

(** C1, as the code has it: where a rule's non-empty pattern occurs in the
    key, the name that is looked up is the key with every occurrence of the
    pattern, leftmost first and without overlap, replaced by the rule's
    replacement: what precedes the first occurrence is kept as it is and
    what follows it is rewritten in the same way.  Where the pattern occurs
    once, that is the key with its first occurrence replaced and the rest
    kept. *)
Theorem resolved_name_replaces_each_occurrence (skipped rest : PackedMapping) (k v : string)
    (shard : shard_id) (f : ShardFile) (key : string) (s : State) (i : nat) :
  Forall (fun r => PyStr.contains r.1 key = false) skipped →
  k ≠ EmptyString →
  PyStr.find k key = Some i →
  ∃ name evs,
    st_trace (load_weight (skipped ++ (k, (v, shard)) :: rest) f key s).1 = st_trace s ++ evs ∧
    looked_up evs = [name] ∧
    name = PyStr.take i key +:+ v +:+
           PyStr.replace (PyStr.drop (i + String.length k) key) k v ∧
    (PyStr.contains k (PyStr.drop (i + String.length k) key) = false →
     name = PyStr.replace_first key k v).
Proof.
  intros Hskip Hk Hi.
  assert (PyStr.contains k key = true) as Hc by (apply contains_find; eauto).
  rewrite load_weight_first_match by done.
  destruct (load_packed_events f key k v shard s) as (evs & Ht & Hl & _).
  exists (PyStr.replace key k v), evs. split; [done|]. split; [done|].
  split; [by apply replace_unfold|]. intros Hrest. by apply (replace_once _ _ _ i).
Qed.

Lemma resolved_name_replaces_each_occurrence_witness :
  ∃ name evs,
    st_trace (load_weight qkv_table ex_file "q_proj.q_proj" ex_state).1
    = st_trace ex_state ++ evs ∧
    looked_up evs = [name] ∧
    name = PyStr.take 0 "q_proj.q_proj" +:+ "qkv_proj" +:+
           PyStr.replace (PyStr.drop (0 + String.length "q_proj") "q_proj.q_proj")
             "q_proj" "qkv_proj" ∧
    (PyStr.contains "q_proj" (PyStr.drop (0 + String.length "q_proj") "q_proj.q_proj") = false →
     name = PyStr.replace_first "q_proj.q_proj" "q_proj" "qkv_proj").
Proof.
  apply (resolved_name_replaces_each_occurrence
           [] [("k_proj", ("qkv_proj", ShardName "k")); ("v_proj", ("qkv_proj", ShardName "v"))]
           "q_proj" "qkv_proj" (ShardName "q") ex_file "q_proj.q_proj" ex_state 0).
  - constructor.
  - discriminate.
  - reflexivity.
Defined.

(** C1 as stated fails: the pattern occurs twice in ["q_proj.q_proj"], and
    the name that is looked up has both occurrences replaced, not the first
    one only. *)
Lemma resolved_name_not_first_occurrence_only :
  PyStr.contains "q_proj" "q_proj.q_proj" = true ∧
  looked_up (st_trace (load_weight qkv_table ex_file "q_proj.q_proj" ex_state).1)
  = ["qkv_proj.qkv_proj"] ∧
  PyStr.replace_first "q_proj.q_proj" "q_proj" "qkv_proj" = "qkv_proj.q_proj" ∧
  looked_up (st_trace (load_weight qkv_table ex_file "q_proj.q_proj" ex_state).1)
  ≠ [PyStr.replace_first "q_proj.q_proj" "q_proj" "qkv_proj"].
Proof. repeat split; try reflexivity. discriminate. Qed.

(** C7: with no [*.safetensors] file the load raises [FileNotFoundError] at
    once: no parameter has been looked up, no loader called, nothing
    printed, and the parameters are as they were. *)
Theorem no_shard_files_raises_at_once (model : NnModule) (path : string) :
  load_model model path []
  = ({| st_params := parameters model; st_trace := [] |},
     Raise {| exc_type := FileNotFoundError;
              exc_msg := "No .safetensors files found in " +:+ path |}).
Proof. reflexivity. Qed.

Lemma looked_up_app (l1 l2 : list event) : looked_up (l1 ++ l2) = looked_up l1 ++ looked_up l2.
Proof. apply omap_app. Qed.

Lemma called_app (l1 l2 : list event) : called (l1 ++ l2) = called l1 ++ called l2.
Proof. apply omap_app. Qed.

Lemma printed_app (l1 l2 : list event) : printed (l1 ++ l2) = printed l1 ++ printed l2.
Proof. apply omap_app. Qed.

(** C5: a key in which a rule's pattern occurs, but whose rewritten name
    is no parameter, fails with [AttributeError]: the rewritten name is the
    only name looked up (the key is not tried by identity), no loader is
    called, no parameter changes, the report names the key, and the loop
    over the keys stops there. *)
Theorem unresolved_packed_name_aborts (skipped rest : PackedMapping) (k v : string)
    (shard : shard_id) (names params : list string) (f : ShardFile) (key : string)
    (ks : list string) (s : State) :
  Forall (fun r => PyStr.contains r.1 key = false) skipped →
  PyStr.contains k key = true →
  st_params s !! PyStr.replace key k v = None →
  ∃ e s',
    try_load_weight (skipped ++ (k, (v, shard)) :: rest) names params f key s = (s', Raise e) ∧
    for_each (key :: ks) (try_load_weight (skipped ++ (k, (v, shard)) :: rest) names params f) s
    = (s', Raise e) ∧
    exc_type e = AttributeError ∧
    st_params s' = st_params s ∧
    looked_up (st_trace s') = looked_up (st_trace s) ++ [PyStr.replace key k v] ∧
    called (st_trace s') = called (st_trace s) ∧
    printed (st_trace s')
    = printed (st_trace s) ++ report_lines key e (file_path f) names params.
Proof.
  intros Hskip Hk Hnone.
  set (e := {| exc_type := AttributeError;
               exc_msg := "has no attribute `" +:+ PyStr.replace key k v +:+ "`" |}).
  set (s' := {| st_params := st_params s;
                st_trace := (st_trace s ++ [EvGetParameter (PyStr.replace key k v)])
                            ++ (EvPrint <$> report_lines key e (file_path f) names params) |}).
  assert (try_load_weight (skipped ++ (k, (v, shard)) :: rest) names params f key s
          = (s', Raise e)) as Hrun.
  { rewrite try_load_weight_run, load_weight_first_match, load_packed_run by done.
    cbn zeta. by rewrite Hnone. }
  exists e, s'. split; [done|]. split; [by rewrite for_each_cons, Hrun|].
  split; [done|]. split; [done|]. cbn [s' st_trace].
  rewrite !looked_up_app, !called_app, !printed_app.
  rewrite looked_up_prints, called_prints, printed_prints. cbn.
  by rewrite !app_nil_r.
Qed.

Lemma unresolved_packed_name_aborts_witness :
  ∃ e s',
    try_load_weight qkv_table [] [] ex_file "attn.q_proj.weight" unfused_state = (s', Raise e) ∧
    for_each ["attn.q_proj.weight"; "head.weight"]
      (try_load_weight qkv_table [] [] ex_file) unfused_state
    = (s', Raise e) ∧
    exc_type e = AttributeError ∧
    st_params s' = st_params unfused_state ∧
    looked_up (st_trace s')
    = looked_up (st_trace unfused_state)
      ++ [PyStr.replace "attn.q_proj.weight" "q_proj" "qkv_proj"] ∧
    called (st_trace s') = called (st_trace unfused_state) ∧
    printed (st_trace s')
    = printed (st_trace unfused_state)
      ++ report_lines "attn.q_proj.weight" e (file_path ex_file) [] [].
Proof.
  apply (unresolved_packed_name_aborts
           [] [("k_proj", ("qkv_proj", ShardName "k")); ("v_proj", ("qkv_proj", ShardName "v"))]
           "q_proj" "qkv_proj" (ShardName "q") [] [] ex_file "attn.q_proj.weight"
           ["head.weight"] unfused_state).
  - constructor.
  - reflexivity.
  - reflexivity.
Defined.

(** C6: when a rule has given the key a shard identifier, the parameter's
    own [weight_loader] is required.  Without one the key fails with
    [AttributeError] and no loader is called, the default one included; with
    one, it is called on the parameter's storage, the file's tensor and the
    shard identifier, and what it returns becomes the parameter's storage. *)
Theorem shard_plan_needs_attached_loader (skipped rest : PackedMapping) (k v : string)
    (shard : shard_id) (f : ShardFile) (key : string) (s : State) (p : Param) (t : Tensor) :
  Forall (fun r => PyStr.contains r.1 key = false) skipped →
  PyStr.contains k key = true →
  st_params s !! PyStr.replace key k v = Some p →
  assoc key (tensors f) = Some t →
  let name := PyStr.replace key k v in
  let run := load_weight (skipped ++ (k, (v, shard)) :: rest) f key s in
  (weight_loader p = None →
   ∃ e, run = (log (EvGetParameter name) s, Raise e) ∧ exc_type e = AttributeError) ∧
  (∀ wl, weight_loader p = Some wl →
     st_trace run.1
     = st_trace s ++ [EvGetParameter name; EvCall name true (data p) t (Some shard)] ∧
     match wl (data p) t (Some shard) with
     | Ok d => run.2 = Ok tt ∧
               st_params run.1 = <[name := {| data := d; weight_loader := Some wl |}]> (st_params s)
     | Raise e => run.2 = Raise e ∧ st_params run.1 = st_params s
     end).
Proof.
  intros Hskip Hk Hp Ht name run. subst name run.
  rewrite load_weight_first_match, load_packed_run by done. cbn zeta.
  rewrite Hp, Ht. split.
  - intros ->. eauto.
  - intros wl Hwl. rewrite Hwl. unfold call.
    destruct (wl (data p) t (Some shard)) as [d|e]; cbn; by rewrite <- app_assoc, ?Hwl.
Qed.

Lemma shard_plan_needs_attached_loader_witness :
  let p := {| data := vec [0; 0]%Z; weight_loader := Some shard_loader |} in
  let t := vec [3; 4]%Z in
  let name := PyStr.replace "attn.q_proj.weight" "q_proj" "qkv_proj" in
  let run := load_weight qkv_table ex_file "attn.q_proj.weight" ex_state in
  (weight_loader p = None →
   ∃ e, run = (log (EvGetParameter name) ex_state, Raise e) ∧ exc_type e = AttributeError) ∧
  (∀ wl, weight_loader p = Some wl →
     st_trace run.1
     = st_trace ex_state
       ++ [EvGetParameter name; EvCall name true (data p) t (Some (ShardName "q"))] ∧
     match wl (data p) t (Some (ShardName "q")) with
     | Ok d => run.2 = Ok tt ∧
               st_params run.1
               = <[name := {| data := d; weight_loader := Some wl |}]> (st_params ex_state)
     | Raise e => run.2 = Raise e ∧ st_params run.1 = st_params ex_state
     end).
Proof.
  apply (shard_plan_needs_attached_loader
           [] [("k_proj", ("qkv_proj", ShardName "k")); ("v_proj", ("qkv_proj", ShardName "v"))]
           "q_proj" "qkv_proj" (ShardName "q") ex_file "attn.q_proj.weight" ex_state
           {| data := vec [0; 0]%Z; weight_loader := Some shard_loader |} (vec [3; 4]%Z)).
  - constructor.
  - reflexivity.
  - reflexivity.
  - reflexivity.
Defined.

(** ** Dispatch of a key that no rule matches *)

Lemma load_weight_no_match (packed : PackedMapping) (f : ShardFile) (key : string) :
  Forall (fun r => PyStr.contains r.1 key = false) packed →
  load_weight packed f key = load_unpacked f key.
Proof.
  intros H. rewrite <- (app_nil_r packed). by rewrite load_weight_skip.
Qed.

(** C2, as the code has it: a key that no rule matches is handed to the
    [weight_loader] attached to its parameter when there is one, called on
    the parameter's storage and the file's tensor without a shard
    identifier; [default_weight_loader] and its in-place copy are used only
    for a parameter that has none, and the copy is exact when the tensor
    has the parameter's shape and element type. *)
Theorem unpacked_plan_uses_attached_loader (packed : PackedMapping) (f : ShardFile)
    (key : string) (s : State) (p : Param) (t : Tensor) :
  Forall (fun r => PyStr.contains r.1 key = false) packed →
  st_params s !! key = Some p →
  assoc key (tensors f) = Some t →
  let run := load_weight packed f key s in
  st_trace run.1
  = st_trace s ++ [EvGetParameter key;
                   EvCall key (bool_decide (is_Some (weight_loader p))) (data p) t None] ∧
  (∀ wl, weight_loader p = Some wl →
     match wl (data p) t None with
     | Ok d => run.2 = Ok tt ∧
               st_params run.1 = <[key := {| data := d; weight_loader := Some wl |}]> (st_params s)
     | Raise e => run.2 = Raise e ∧ st_params run.1 = st_params s
     end) ∧
  (weight_loader p = None →
     match default_weight_loader (data p) t with
     | Ok d => run.2 = Ok tt ∧
               st_params run.1 = <[key := {| data := d; weight_loader := None |}]> (st_params s)
     | Raise e => run.2 = Raise e ∧ st_params run.1 = st_params s
     end) ∧
  (weight_loader p = None →
   t_shape (data p) = t_shape t → t_dtype (data p) = t_dtype t → tensor_wf t →
   run.2 = Ok tt ∧
   st_params run.1 = <[key := {| data := t; weight_loader := None |}]> (st_params s)).
Proof.
  intros Hno Hp Ht run. subst run.
  rewrite load_weight_no_match, load_unpacked_run by done. cbn zeta.
  rewrite Hp, Ht. unfold call.
  split; [|split; [|split]].
  - destruct (default default_weight_loader_callable (weight_loader p) (data p) t None);
      cbn; by rewrite <- app_assoc.
  - intros wl Hwl. rewrite Hwl. cbn [from_option id].
    destruct (wl (data p) t None); cbn; by rewrite ?Hwl.
  - intros Hwl. rewrite Hwl. cbn [from_option id default_weight_loader_callable].
    destruct (default_weight_loader (data p) t); cbn; by rewrite ?Hwl.
  - intros Hwl Hshape Hdtype Hwf. rewrite Hwl.
    cbn [from_option id default_weight_loader_callable]. unfold default_weight_loader.
    rewrite copy_exact by done. by cbn.
Qed.

Lemma unpacked_plan_uses_attached_loader_witness :
  let p := {| data := vec [5; 5]%Z; weight_loader := None |} in
  let t := vec [1; 2]%Z in
  let run := load_weight qkv_table ex_file "norm.weight" ex_state in
  st_trace run.1
  = st_trace ex_state
    ++ [EvGetParameter "norm.weight";
        EvCall "norm.weight" (bool_decide (is_Some (weight_loader p))) (data p) t None] ∧
  (∀ wl, weight_loader p = Some wl →
     match wl (data p) t None with
     | Ok d => run.2 = Ok tt ∧
               st_params run.1
               = <["norm.weight" := {| data := d; weight_loader := Some wl |}]>
                   (st_params ex_state)
     | Raise e => run.2 = Raise e ∧ st_params run.1 = st_params ex_state
     end) ∧
  (weight_loader p = None →
     match default_weight_loader (data p) t with
     | Ok d => run.2 = Ok tt ∧
               st_params run.1
               = <["norm.weight" := {| data := d; weight_loader := None |}]>
                   (st_params ex_state)
     | Raise e => run.2 = Raise e ∧ st_params run.1 = st_params ex_state
     end) ∧
  (weight_loader p = None →
   t_shape (data p) = t_shape t → t_dtype (data p) = t_dtype t → tensor_wf t →
   run.2 = Ok tt ∧
   st_params run.1
   = <["norm.weight" := {| data := t; weight_loader := None |}]> (st_params ex_state)).
Proof.
  apply (unpacked_plan_uses_attached_loader qkv_table ex_file "norm.weight" ex_state
           {| data := vec [5; 5]%Z; weight_loader := None |} (vec [1; 2]%Z)).
  - repeat constructor.
  - reflexivity.
  - reflexivity.
Defined.

(** C2 as stated fails: ["embed.weight"] has a loader attached, no rule
    matches it, and the loader is what runs: the parameter receives the
    leading part of the tensor, where the default loader's copy of the whole
    tensor would have raised. *)
Lemma unpacked_plan_not_always_default :
  Forall (fun r => PyStr.contains r.1 "embed.weight" = false) qkv_table ∧
  load_weight qkv_table embed_file "embed.weight" embed_state
  = ({| st_params := {["embed.weight" := {| data := vec [1; 2]%Z;
                                            weight_loader := Some rank0_loader |}]};
        st_trace := [EvGetParameter "embed.weight";
                     EvCall "embed.weight" true (vec [0; 0]%Z) (vec [1; 2; 3; 4]%Z) None] |},
     Ok tt) ∧
  default_weight_loader (vec [0; 0]%Z) (vec [1; 2; 3; 4]%Z)
  = Raise {| exc_type := RuntimeError;
             exc_msg := "The size of tensor a must match the size of tensor b" |}.
Proof. split; [repeat constructor|]. split; reflexivity. Qed.

(** C3, as the code has it: when the default loader is given a tensor whose
    shape cannot be broadcast to the parameter's, the copy raises
    [RuntimeError] and the parameter keeps its contents; the [try] handles
    [AttributeError] only, so the error leaves the loop with nothing
    printed. *)
Theorem shape_mismatch_raises_unreported (packed : PackedMapping) (names params : list string)
    (f : ShardFile) (key : string) (s : State) (p : Param) (t : Tensor) :
  Forall (fun r => PyStr.contains r.1 key = false) packed →
  st_params s !! key = Some p →
  weight_loader p = None →
  assoc key (tensors f) = Some t →
  broadcastable (t_shape (data p)) (t_shape t) = false →
  ∃ e s',
    try_load_weight packed names params f key s = (s', Raise e) ∧
    exc_type e = RuntimeError ∧
    st_params s' = st_params s ∧
    printed (st_trace s') = printed (st_trace s).
Proof.
  intros Hno Hp Hwl Ht Hshape.
  rewrite try_load_weight_run, load_weight_no_match, load_unpacked_run by done.
  cbn zeta. rewrite Hp, Ht, Hwl. unfold call.
  cbn [from_option id default_weight_loader_callable]. unfold default_weight_loader, copy_.
  rewrite Hshape. cbn [exc_type]. rewrite decide_False by done.
  eexists _, _. split; [done|]. split; [done|]. split; [done|].
  cbn [log st_trace]. rewrite !printed_app. cbn. by rewrite !app_nil_r.
Qed.

Lemma shape_mismatch_raises_unreported_witness :
  ∃ e s',
    try_load_weight [] ["w"] ["w"] narrow_file "w"
      {| st_params := parameters wide_model; st_trace := [] |} = (s', Raise e) ∧
    exc_type e = RuntimeError ∧
    st_params s' = parameters wide_model ∧
    printed (st_trace s') = printed [].
Proof.
  apply (shape_mismatch_raises_unreported [] ["w"] ["w"] narrow_file "w"
           {| st_params := parameters wide_model; st_trace := [] |}
           {| data := zeros [4; 8]; weight_loader := None |} (zeros [4; 4])).
  - constructor.
  - reflexivity.
  - reflexivity.
  - reflexivity.
  - reflexivity.
Defined.

(** C3 as stated fails: a [4, 4] tensor for a parameter declared [4, 8]
    makes the load raise and leaves the parameter as it was, but no line of
    the report is printed before the error leaves [load_model]. *)
Lemma shape_mismatch_prints_no_report :
  t_shape (zeros [4; 4]) ≠ t_shape (zeros [4; 8]) ∧
  load_model wide_model "/ckpt" [narrow_file]
  = ({| st_params := parameters wide_model;
        st_trace := [EvNamedParameters; EvGetParameter "w";
                     EvCall "w" false (zeros [4; 8]) (zeros [4; 4]) None] |},
     Raise {| exc_type := RuntimeError;
              exc_msg := "The size of tensor a must match the size of tensor b" |}) ∧
  printed (st_trace (load_model wide_model "/ckpt" [narrow_file]).1) = [] ∧
  report_lines "w" {| exc_type := RuntimeError;
                      exc_msg := "The size of tensor a must match the size of tensor b" |}
    "/ckpt/model.safetensors" ["w"] ["w"] ≠ [].
Proof. split; [discriminate|]. split; [reflexivity|]. split; [reflexivity|discriminate]. Qed.

(** ** The whole load *)

(** The effect of the loop over the keys: parameters change only where a
    loader was called, a run to the end prints nothing, and a run that
    raises has printed the report of the key it raised on when the error is
    an [AttributeError], and nothing otherwise. *)
Lemma load_keys_effect (packed : PackedMapping) (names params : list string)
    (l : list (ShardFile * string)) (s s' : State) (r : result unit) :
  for_each l (fun fk => try_load_weight packed names params fk.1 fk.2) s = (s', r) →
  ∃ evs,
    st_trace s' = st_trace s ++ evs ∧
    (∀ name, name ∉ called evs → st_params s' !! name = st_params s !! name) ∧
    match r with
    | Ok _ => printed evs = []
    | Raise e =>
        ∃ fk, fk ∈ l ∧
              printed evs = if decide (exc_type e = AttributeError)
                            then report_lines fk.2 e (file_path fk.1) names params
                            else []
    end.
Proof.
  revert s; induction l as [|x l IH]; intros s.
  - intros [= <- <-]. exists []. by rewrite app_nil_r.
  - rewrite for_each_cons.
    destruct (try_load_weight packed names params x.1 x.2 s) as [s1 [[]|e1]] eqn:Hx;
      apply try_load_weight_effect in Hx as (evs1 & Ht1 & Hc1 & _ & Hp1).
    + intros (evs2 & Ht2 & Hc2 & Hp2)%IH. exists (evs1 ++ evs2).
      split; [by rewrite Ht2, Ht1, app_assoc|]. split.
      * intros name Hname. rewrite called_app in Hname.
        rewrite Hc2, Hc1; [done|set_solver..].
      * rewrite printed_app, Hp1. destruct r as [u|e]; [done|].
        destruct Hp2 as (fk & Hfk & Hp2). exists fk. split; [by right|done].
    + intros [= <- <-]. exists evs1. split; [done|]. split; [done|].
      exists x. split; [by left|done].
Qed.

(** The names shown for a namespace: its first 20 in sorted order, and the
    count of the others when there are any. *)
Lemma report_names_sample (names : list string) :
  ∃ sample omitted,
    sample ++ omitted ≡ₚ names ∧
    StronglySorted String.le (sample ++ omitted) ∧
    length sample ≤ 20 ∧
    length omitted = length names - 20 ∧
    report_names names
    = ((fun name => "  " +:+ name) <$> sample)
      ++ (if decide (20 < length names)
          then ["  ... and " +:+ pretty (length omitted) +:+ " more"]
          else []).
Proof.
  exists (take 20 (sorted names)), (drop 20 (sorted names)).
  assert (length (sorted names) = length names) as Hlen
    by (unfold sorted; by rewrite merge_sort_Permutation).
  rewrite take_drop. split; [apply merge_sort_Permutation|].
  split; [apply StronglySorted_merge_sort; apply _|].
  split; [rewrite length_take; lia|].
  split; [by rewrite length_drop, Hlen|].
  unfold report_names. rewrite length_drop, Hlen.
  destruct (Nat.ltb_spec 20 (length names)).
  - by rewrite decide_True.
  - by rewrite decide_False by lia.
Qed.

(** ** Loading what was serialized *)

Lemma load_unpacked_exact (f : ShardFile) (key : string) (s : State) (p : Param) (t : Tensor) :
  st_params s !! key = Some p →
  assoc key (tensors f) = Some t →
  weight_loader p = None →
  t_shape (data p) = t_shape t →
  t_dtype (data p) = t_dtype t →
  tensor_wf t →
  load_unpacked f key s
  = ({| st_params := <[key := {| data := t; weight_loader := None |}]> (st_params s);
        st_trace := st_trace s ++ [EvGetParameter key; EvCall key false (data p) t None] |},
     Ok tt).
Proof.
  intros Hp Ht Hwl Hshape Hdtype Hwf. rewrite load_unpacked_run. cbn zeta.
  rewrite Hp, Ht, Hwl. unfold call.
  cbn [from_option id default_weight_loader_callable]. unfold default_weight_loader.
  rewrite copy_exact by done. cbn. by rewrite <- app_assoc, Hwl.
Qed.

Lemma serialize_keys (path : string) (src : gmap string Param) :
  keys (serialize path src) = (map_to_list src).*1.
Proof.
  unfold keys, serialize. cbn [tensors]. rewrite <- list_fmap_compose.
  apply list_fmap_ext. by intros i [name p] _.
Qed.

Lemma serialize_assoc (path : string) (src : gmap string Param) (name : string) (p : Param) :
  src !! name = Some p → assoc name (tensors (serialize path src)) = Some (data p).
Proof.
  intros Hp. apply assoc_NoDup.
  - fold (keys (serialize path src)). rewrite serialize_keys.
    apply NoDup_fst_map_to_list.
  - cbn [serialize tensors]. apply list_elem_of_fmap. exists (name, p).
    split; [done|]. by apply elem_of_map_to_list.
Qed.

(** Keys that are names of default-loaded parameters of the right shape
    and element type are all loaded, each into its own parameter. *)
Lemma load_serialized_keys (names params : list string) (f : ShardFile)
    (l : list (string * Param)) :
  NoDup l.*1 →
  (∀ name p, (name, p) ∈ l →
     assoc name (tensors f) = Some (data p) ∧ tensor_wf (data p)) →
  ∀ s,
    (∀ name p, (name, p) ∈ l →
       ∃ q, st_params s !! name = Some q ∧ weight_loader q = None ∧
            t_shape (data q) = t_shape (data p) ∧ t_dtype (data q) = t_dtype (data p)) →
    ∃ s',
      for_each l.*1 (try_load_weight [] names params f) s = (s', Ok tt) ∧
      (∀ name p, (name, p) ∈ l →
         st_params s' !! name = Some {| data := data p; weight_loader := None |}) ∧
      (∀ name, name ∉ l.*1 → st_params s' !! name = st_params s !! name).
Proof.
  induction l as [|[name p] l IH]; intros Hdup Hfile s Htarget.
  - exists s. split; [done|]. split; [by intros ?? ?%elem_of_nil|done].
  - apply NoDup_cons in Hdup as [Hname Hdup]. cbn [fmap list_fmap fst] in *.
    destruct (Hfile name p) as [Ht Hwf]; [by left|].
    destruct (Htarget name p) as (q & Hq & Hwl & Hshape & Hdtype); [by left|].
    rewrite for_each_cons, try_load_weight_run. cbn [load_weight].
    rewrite (load_unpacked_exact f name s q (data p)) by done.
    set (s1 := {| st_params := <[name := {| data := data p; weight_loader := None |}]> (st_params s);
                  st_trace := st_trace s ++ [EvGetParameter name;
                                             EvCall name false (data q) (data p) None] |}).
    destruct (IH Hdup) with (s := s1) as (s' & Hrun & Hin & Hout).
    { intros n' p' Hn'. apply Hfile. by right. }
    { intros n' p' Hn'. destruct (Htarget n' p') as (q' & Hq' & ?); [by right|].
      exists q'. split; [|done]. cbn [s1 st_params]. rewrite lookup_insert_ne; [done|].
      intros ->. apply Hname. apply list_elem_of_fmap. by exists (n', p'). }
    exists s'. split; [done|]. split.
    + intros n' p' [[= -> ->]|Hn']%elem_of_cons; [|by apply Hin].
      rewrite Hout by done. cbn [s1 st_params]. by rewrite lookup_insert_eq.
    + intros n' Hn'. apply not_elem_of_cons in Hn' as [Hne Hn'].
      rewrite Hout by done. cbn [s1 st_params]. by rewrite lookup_insert_ne.
Qed.

(** C9, as the code has it: into parameters that have no loader attached,
    with an empty packing table, loading the checkpoint written from a
    parameter set of the same names, shapes and element types (that same
    parameter set, whatever it holds when the load starts) runs to the end
    and leaves in every parameter exactly the serialized tensor; the other
    parameters are left as they were. *)
Theorem round_trip_with_default_loaders (model : NnModule) (path file : string)
    (src : gmap string Param) :
  default [] (packed_modules_mapping model) = [] →
  (∀ name p, src !! name = Some p →
     tensor_wf (data p) ∧
     ∃ q, parameters model !! name = Some q ∧ weight_loader q = None ∧
          t_shape (data q) = t_shape (data p) ∧ t_dtype (data q) = t_dtype (data p)) →
  ∃ s',
    load_model model path [serialize file src] = (s', Ok tt) ∧
    (∀ name p, src !! name = Some p →
       st_params s' !! name = Some {| data := data p; weight_loader := None |}) ∧
    (∀ name, src !! name = None → st_params s' !! name = parameters model !! name).
Proof.
  intros Hpacked Hsrc. unfold load_model, load_model_body. rewrite Hpacked, bind_run.
  cbn [named_parameters]. unfold load_files. rewrite for_each_cons, serialize_keys.
  set (s0 := log EvNamedParameters {| st_params := parameters model; st_trace := [] |}).
  destruct (load_serialized_keys
              (concat (keys <$> [serialize file src])) (map_to_list (st_params
                 {| st_params := parameters model; st_trace := [] |})).*1
              (serialize file src) (map_to_list src))
    with (s := s0) as (s' & Hrun & Hin & Hout).
  - apply NoDup_fst_map_to_list.
  - intros name p Hp%elem_of_map_to_list. split; [by apply serialize_assoc|].
    by destruct (Hsrc name p Hp).
  - intros name p Hp%elem_of_map_to_list. by destruct (Hsrc name p Hp).
  - rewrite Hrun. exists s'. split; [done|]. split.
    + intros name p Hp. apply Hin. by apply elem_of_map_to_list.
    + intros name Hname. rewrite Hout; [done|].
      intros ((n & p) & -> & Hp%elem_of_map_to_list)%list_elem_of_fmap.
      cbn [fst] in Hname. congruence.
Qed.

Lemma round_trip_with_default_loaders_witness :
  ∃ s',
    load_model norm_model "/ckpt" [serialize "/ckpt/model.safetensors" norm_saved] = (s', Ok tt) ∧
    (∀ name p, norm_saved !! name = Some p →
       st_params s' !! name = Some {| data := data p; weight_loader := None |}) ∧
    (∀ name, norm_saved !! name = None → st_params s' !! name = parameters norm_model !! name).
Proof.
  apply (round_trip_with_default_loaders norm_model "/ckpt" "/ckpt/model.safetensors" norm_saved).
  - reflexivity.
  - unfold norm_saved. intros name p [<- <-]%lookup_singleton_Some. split; [reflexivity|].
    exists {| data := vec [5; 5]%Z; weight_loader := None |}.
    split; [reflexivity|]. split; [reflexivity|]. split; reflexivity.
Defined.

(** C9 as stated fails.  One of the parameters of [plain_model] has a
    loader attached that requires a shard identifier: loading the checkpoint
    written from these very parameters under an empty packing table calls
    that loader without one, and the load raises [TypeError].  The parameter
    of [rank1_model] has a loader attached that reads its own part of a
    larger tensor: given the tensor written from the parameter itself, it
    raises [RuntimeError]. *)
Lemma round_trip_fails_with_attached_loader :
  packed_modules_mapping plain_model = None ∧
  (load_model plain_model "/ckpt"
     [serialize "/ckpt/model.safetensors" (parameters plain_model)]).2
  = Raise {| exc_type := TypeError;
             exc_msg := "weight_loader() missing 1 required positional argument: 'loaded_shard_id'" |} ∧
  packed_modules_mapping rank1_model = None ∧
  (load_model rank1_model "/ckpt"
     [serialize "/ckpt/model.safetensors" (parameters rank1_model)]).2
  = Raise {| exc_type := RuntimeError;
             exc_msg := "start + length exceeds dimension size" |}.
Proof. repeat split; reflexivity. Qed.

(** ** Further properties of the loader *)

(** What every step preserves, the loop preserves. *)
Lemma for_each_invariant {A} (I : State → Prop) (l : list A) (body : A → M unit) :
  (∀ x s s' r, x ∈ l → I s → body x s = (s', r) → I s') →
  ∀ s s' r, I s → for_each l body s = (s', r) → I s'.
Proof.
  induction l as [|x l IH]; intros Hstep s s' r Hs.
  - by intros [= <- <-].
  - rewrite for_each_cons. destruct (body x s) as [s1 [[]|e1]] eqn:Hx.
    + apply IH; [|by eapply Hstep; [left|..]].
      intros y t t' r' Hy. apply Hstep. by right.
    + intros [= <- <-]. eapply Hstep; [left|done..].
Qed.

Lemma target_name_no_match (packed : PackedMapping) (key : string) :
  Forall (fun r => PyStr.contains r.1 key = false) packed → target_name packed key = key.
Proof.
  induction 1 as [|[k [v shard]] packed Hk _ IH]; [done|].
  cbn [target_name]. cbn [fst] in Hk. by rewrite Hk.
Qed.

Lemma target_name_first_match (skipped rest : PackedMapping) (k v : string)
    (shard : shard_id) (key : string) :
  Forall (fun r => PyStr.contains r.1 key = false) skipped →
  PyStr.contains k key = true →
  target_name (skipped ++ (k, (v, shard)) :: rest) key = PyStr.replace key k v.
Proof.
  induction 1 as [|[k' [v' shard']] skipped Hk' _ IH]; intros Hk.
  - cbn [app target_name]. by rewrite Hk.
  - cbn [app target_name]. cbn [fst] in Hk'. rewrite Hk'. by apply IH.
Qed.

(** One weight, in full: the name of [target_name] is looked up; then
    either the key raises before any loader is called, or one loader is
    called on that parameter, the attached one if there is one and the
    default one otherwise, and what it returns replaces the parameter's
    [data] and nothing else. *)
Lemma load_weight_step (packed : PackedMapping) (f : ShardFile) (key : string)
    (s s' : State) (r : result unit) :
  load_weight packed f key s = (s', r) →
  (st_trace s' = st_trace s ++ [EvGetParameter (target_name packed key)] ∧
   st_params s' = st_params s ∧ ∃ e, r = Raise e) ∨
  (∃ q t custom sid,
     st_params s !! target_name packed key = Some q ∧
     assoc key (tensors f) = Some t ∧
     st_trace s' = st_trace s ++ [EvGetParameter (target_name packed key);
                                  EvCall (target_name packed key) custom (data q) t sid] ∧
     ((sid = None ∧ custom = bool_decide (is_Some (weight_loader q))) ∨
      (is_Some sid ∧ custom = true ∧ is_Some (weight_loader q))) ∧
     match default default_weight_loader_callable (weight_loader q) (data q) t sid with
     | Ok d => r = Ok tt ∧
               st_params s'
               = <[target_name packed key := {| data := d; weight_loader := weight_loader q |}]>
                   (st_params s)
     | Raise e => r = Raise e ∧ st_params s' = st_params s
     end).
Proof.
  destruct (load_weight_cases packed f key)
    as [[Hno ->]|(skipped & k & v & shard & rest & -> & Hskip & Hk & ->)].
  - rewrite (target_name_no_match _ _ Hno), load_unpacked_run. cbn zeta.
    destruct (st_params s !! key) as [q|] eqn:Hq; [|intros [= <- <-]; left; eauto].
    destruct (assoc key (tensors f)) as [t|] eqn:Ht; [|intros [= <- <-]; left; eauto].
    unfold call. intros Hrun. right.
    exists q, t, (bool_decide (is_Some (weight_loader q))), None.
    split; [done|]. split; [done|].
    destruct (default default_weight_loader_callable (weight_loader q) (data q) t None);
      injection Hrun as <- <-; cbn [log st_trace st_params]; rewrite <- app_assoc; auto.
  - rewrite (target_name_first_match _ _ _ _ _ _ Hskip Hk), load_packed_run. cbn zeta.
    destruct (st_params s !! PyStr.replace key k v) as [q|] eqn:Hq;
      [|intros [= <- <-]; left; eauto].
    destruct (weight_loader q) as [wl|] eqn:Hwl; [|intros [= <- <-]; left; eauto].
    destruct (assoc key (tensors f)) as [t|] eqn:Ht; [|intros [= <- <-]; left; eauto].
    unfold call. rewrite Hwl. intros Hrun. right. exists q, t, true, (Some shard).
    split; [done|]. split; [done|]. rewrite Hwl. cbn [from_option id].
    destruct (wl (data q) t (Some shard));
      injection Hrun as <- <-; cbn [log st_trace st_params]; rewrite <- app_assoc;
      (split; [done|]); (split; [right; eauto|done]).
Qed.

(** The [try] adds the report to what the weight did, and only that. *)
Lemma try_load_weight_split (packed : PackedMapping) (names params : list string)
    (f : ShardFile) (key : string) (s s' : State) (r : result unit) :
  try_load_weight packed names params f key s = (s', r) →
  ∃ s1,
    load_weight packed f key s = (s1, r) ∧
    st_params s' = st_params s1 ∧
    st_trace s'
    = st_trace s1
      ++ (EvPrint <$> match r with
                      | Raise e => if decide (exc_type e = AttributeError)
                                   then report_lines key e (file_path f) names params
                                   else []
                      | Ok _ => []
                      end).
Proof.
  rewrite try_load_weight_run.
  destruct (load_weight packed f key s) as [s1 [u|e]].
  - intros [= <- <-]. exists s1. by rewrite app_nil_r.
  - destruct (decide (exc_type e = AttributeError)) as [He|He]; intros [= <- <-]; exists s1.
    + by rewrite decide_True.
    + rewrite decide_False by done. by rewrite app_nil_r.
Qed.

(** [load_model] either stops on the empty list of files or runs the loop
    over [work]. *)
Lemma load_model_run (model : NnModule) (path : string) (safetensor_files : list ShardFile) :
  (safetensor_files = [] ∧
   load_model model path safetensor_files
   = ({| st_params := parameters model; st_trace := [] |},
      Raise {| exc_type := FileNotFoundError;
               exc_msg := "No .safetensors files found in " +:+ path |})) ∨
  (safetensor_files ≠ [] ∧
   load_model model path safetensor_files
   = for_each (work safetensor_files)
       (fun fk => try_load_weight (default [] (packed_modules_mapping model))
                    (concat (keys <$> safetensor_files))
                    (map_to_list (parameters model)).*1 fk.1 fk.2)
       (log EvNamedParameters {| st_params := parameters model; st_trace := [] |})).
Proof.
  destruct safetensor_files as [|f0 files]; [by left|]. right. split; [done|].
  unfold load_model, load_model_body. rewrite bind_run. cbn [named_parameters].
  unfold load_files. by rewrite (for_each_work _ (try_load_weight _ _ _)).
Qed.

(** X1: a key in which no pattern of the table occurs and which is not the
    name of a parameter fails with [AttributeError]: the key is the only
    name looked up, no loader is called, no parameter changes, the report
    names the key and its file, and the loop over the keys stops there. *)
Theorem unknown_key_aborts (packed : PackedMapping) (names params : list string)
    (f : ShardFile) (key : string) (ks : list string) (s : State) :
  Forall (fun r => PyStr.contains r.1 key = false) packed →
  st_params s !! key = None →
  ∃ e s',
    for_each (key :: ks) (try_load_weight packed names params f) s = (s', Raise e) ∧
    exc_type e = AttributeError ∧
    st_params s' = st_params s ∧
    looked_up (st_trace s') = looked_up (st_trace s) ++ [key] ∧
    called (st_trace s') = called (st_trace s) ∧
    printed (st_trace s')
    = printed (st_trace s) ++ report_lines key e (file_path f) names params ∧
    "Failed to load weight: " +:+ key ∈ printed (st_trace s') ∧
    nl +:+ "Weight file: " +:+ file_path f ∈ printed (st_trace s').
Proof.
  intros Hno Hnone.
  set (e := {| exc_type := AttributeError;
               exc_msg := "has no attribute `" +:+ key +:+ "`" |}).
  set (s' := {| st_params := st_params s;
                st_trace := (st_trace s ++ [EvGetParameter key])
                            ++ (EvPrint <$> report_lines key e (file_path f) names params) |}).
  assert (try_load_weight packed names params f key s = (s', Raise e)) as Hrun.
  { rewrite try_load_weight_run, load_weight_no_match, load_unpacked_run by done.
    cbn zeta. by rewrite Hnone. }
  assert (printed (st_trace s')
          = printed (st_trace s) ++ report_lines key e (file_path f) names params) as Hp.
  { cbn [s' st_trace]. rewrite !printed_app, printed_prints. cbn. by rewrite app_nil_r. }
  exists e, s'. split; [by rewrite for_each_cons, Hrun|].
  split; [done|]. split; [done|].
  split; [cbn [s' st_trace]; rewrite !looked_up_app, looked_up_prints; cbn;
          by rewrite app_nil_r|].
  split; [cbn [s' st_trace]; rewrite !called_app, called_prints; cbn;
          by rewrite !app_nil_r|].
  split; [done|]. rewrite Hp. unfold report_lines.
  split; apply elem_of_app; right; set_solver.
Qed.

Lemma unknown_key_aborts_witness :
  ∃ e s',
    for_each ["head.weight"; "norm.weight"] (try_load_weight qkv_table [] [] ex_file) ex_state
    = (s', Raise e) ∧
    exc_type e = AttributeError ∧
    st_params s' = st_params ex_state ∧
    looked_up (st_trace s') = looked_up (st_trace ex_state) ++ ["head.weight"] ∧
    called (st_trace s') = called (st_trace ex_state) ∧
    printed (st_trace s')
    = printed (st_trace ex_state) ++ report_lines "head.weight" e (file_path ex_file) [] [] ∧
    "Failed to load weight: " +:+ "head.weight" ∈ printed (st_trace s') ∧
    nl +:+ "Weight file: " +:+ file_path ex_file ∈ printed (st_trace s').
Proof.
  apply (unknown_key_aborts qkv_table [] [] ex_file "head.weight" ["norm.weight"] ex_state).
  - repeat constructor.
  - reflexivity.
Defined.

(** The effect of the loop on a state: the conditions under which a
    property of the state, true before the load, is true after it. *)
Lemma load_model_invariant (I : State → Prop) (model : NnModule) (path : string)
    (safetensor_files : list ShardFile) :
  I {| st_params := parameters model; st_trace := [] |} →
  (∀ s, I s → I (log EvNamedParameters s)) →
  (∀ f key names params s s' r,
     f ∈ safetensor_files → key ∈ keys f → I s →
     try_load_weight (default [] (packed_modules_mapping model)) names params f key s = (s', r) →
     I s') →
  I (load_model model path safetensor_files).1.
Proof.
  intros Hinit Hlog Hstep.
  destruct (load_model_run model path safetensor_files) as [[_ ->]|[_ ->]]; [done|].
  match goal with
  | |- I (for_each ?l ?body ?s).1 =>
      destruct (for_each l body s) as [s' r] eqn:Hrun;
      apply (for_each_invariant I l body) in Hrun; [done| |by apply Hlog]
  end.
  intros [f key] s1 s2 r1 [Hf Hkey]%elem_of_work Hs1. cbn [fst snd]. by apply Hstep.
Qed.

(** What a load has printed: nothing, unless it raised an [AttributeError],
    and then the report of one key of one file. *)
Lemma load_model_printed (model : NnModule) (path : string)
    (safetensor_files : list ShardFile) :
  (printed (st_trace (load_model model path safetensor_files).1) = [] ∧
   ∀ e, (load_model model path safetensor_files).2 = Raise e → exc_type e ≠ AttributeError) ∨
  (∃ f key e,
     f ∈ safetensor_files ∧ key ∈ keys f ∧
     (load_model model path safetensor_files).2 = Raise e ∧
     exc_type e = AttributeError ∧
     printed (st_trace (load_model model path safetensor_files).1)
     = report_lines key e (file_path f) (concat (keys <$> safetensor_files))
         (map_to_list (parameters model)).*1).
Proof.
  destruct (load_model_run model path safetensor_files) as [[_ ->]|[_ ->]].
  - left. split; [done|]. by intros e [= <-].
  - match goal with
    | |- context [for_each ?l ?body ?s] => destruct (for_each l body s) as [s' r] eqn:Hrun
    end.
    apply load_keys_effect in Hrun as (evs & Ht & _ & Hp). cbn [fst snd].
    assert (printed (st_trace s') = printed evs) as ->
      by (rewrite Ht; cbn [log st_trace]; by rewrite printed_app).
    destruct r as [u|e]; [left; split; [done|by intros e [=]]|].
    destruct Hp as ([f key] & [Hf Hkey]%elem_of_work & Hp). cbn [fst snd] in Hp.
    destruct (decide (exc_type e = AttributeError)) as [He|He].
    + right. by exists f, key, e.
    + left. split; [done|]. by intros e' [= <-].
Qed.

Lemma report_names_length (names : list string) : length (report_names names) ≤ 21.
Proof.
  unfold report_names. rewrite length_app, length_fmap, length_take.
  destruct (20 <? length names); cbn [length]; lia.
Qed.

(** X2: a load prints the report exactly when it raises an
    [AttributeError]; a load that returns, and a load that raises anything
    else ([FileNotFoundError], or what a loader raises), prints nothing. *)
Theorem report_printed_iff_attribute_error (model : NnModule) (path : string)
    (safetensor_files : list ShardFile) :
  printed (st_trace (load_model model path safetensor_files).1) ≠ [] ↔
  ∃ e, (load_model model path safetensor_files).2 = Raise e ∧ exc_type e = AttributeError.
Proof.
  destruct (load_model_printed model path safetensor_files)
    as [[Hp Hne]|(f & key & e & _ & _ & Hr & He & Hp)].
  - rewrite Hp. split; [done|]. intros (e & Hr & He). by destruct (Hne e Hr).
  - rewrite Hp. split; [by eauto|]. by intros _.
Qed.

(** X3: whatever the number of keys and of parameters, a load calls
    [print] at most 51 times: the 9 fixed calls of the report, at most 20
    calls for names and one for the count of the rest for the keys, and as
    many for the parameters.  (Five of the fixed calls print a string that
    begins or ends with a newline, so the lines of output are more.) *)
Theorem print_calls_bounded (model : NnModule) (path : string)
    (safetensor_files : list ShardFile) :
  length (printed (st_trace (load_model model path safetensor_files).1)) ≤ 51.
Proof.
  destruct (load_model_printed model path safetensor_files)
    as [[-> _]|(f & key & e & _ & _ & _ & _ & ->)]; [cbn; lia|].
  unfold report_lines. rewrite !length_app. cbn [length].
  pose proof (report_names_length (concat (keys <$> safetensor_files))).
  pose proof (report_names_length (map_to_list (parameters model)).*1).
  lia.
Qed.

(** What one key does to the parameters: nothing, or one write of what a
    loader returned into the [data] of the parameter of [target_name]. *)
Lemma try_load_weight_params (packed : PackedMapping) (names params : list string)
    (f : ShardFile) (key : string) (s s' : State) (r : result unit) :
  try_load_weight packed names params f key s = (s', r) →
  st_params s' = st_params s ∨
  ∃ q t sid d,
    st_params s !! target_name packed key = Some q ∧
    (weight_loader q = None → sid = None) ∧
    default default_weight_loader_callable (weight_loader q) (data q) t sid = Ok d ∧
    r = Ok tt ∧
    st_params s'
    = <[target_name packed key := {| data := d; weight_loader := weight_loader q |}]>
        (st_params s).
Proof.
  intros (s1 & Hrun & -> & _)%try_load_weight_split.
  apply load_weight_step in Hrun
    as [(_ & ? & _)|(q & t & custom & sid & Hq & _ & _ & Hsid & Hcall)]; [by left|].
  destruct (default default_weight_loader_callable (weight_loader q) (data q) t sid)
    as [d|e] eqn:Hd.
  - right. exists q, t, sid, d. destruct Hcall as [-> ->]. repeat split; try done.
    intros Hwl. destruct Hsid as [[-> _]|(_ & _ & [wl Hwl'])]; [done|congruence].
  - left. by destruct Hcall.
Qed.

(** X4: a load never adds, removes or renames a parameter and never
    changes the [weight_loader] attached to one: after any load, returned or
    raised, every name has the loader it had before, or is still no
    parameter. *)
Theorem load_keeps_names_and_loaders (model : NnModule) (path : string)
    (safetensor_files : list ShardFile) (name : string) :
  weight_loader <$> (st_params (load_model model path safetensor_files).1 !! name)
  = weight_loader <$> (parameters model !! name).
Proof.
  revert name.
  apply (load_model_invariant
           (fun s => ∀ name, weight_loader <$> (st_params s !! name)
                             = weight_loader <$> (parameters model !! name))); [done|done|].
  intros f key names params s s' r _ _ Hs
    [->|(q & t & sid & d & Hq & _ & _ & _ & ->)]%try_load_weight_params; [done|].
  intros name. destruct (decide (target_name (default [] (packed_modules_mapping model)) key = name))
    as [<-|Hne].
  - rewrite lookup_insert_eq, <- Hs, Hq. done.
  - by rewrite lookup_insert_ne.
Qed.

Lemma copy_keeps_layout (dst src d : Tensor) :
  copy_ dst src = Ok d →
  t_shape d = t_shape dst ∧ t_dtype d = t_dtype dst ∧ tensor_wf d.
Proof.
  unfold copy_. destruct (broadcastable (t_shape dst) (t_shape src)); [|done].
  intros [= <-]. split; [done|]. split; [done|].
  unfold tensor_wf, expand. cbn [t_data t_shape]. by rewrite !length_fmap, length_seq.
Qed.

(** X5: a parameter with no loader attached keeps its shape and its
    element type through any load, returned or raised, and holds one
    element per index afterwards if it did before: it is only ever written
    by the default loader's [copy_], which broadcasts and converts what it
    is given to the parameter's own layout. *)
Theorem default_loaded_keep_layout (model : NnModule) (path : string)
    (safetensor_files : list ShardFile) (name : string) (p : Param) :
  parameters model !! name = Some p →
  weight_loader p = None →
  ∃ p',
    st_params (load_model model path safetensor_files).1 !! name = Some p' ∧
    weight_loader p' = None ∧
    t_shape (data p') = t_shape (data p) ∧
    t_dtype (data p') = t_dtype (data p) ∧
    (tensor_wf (data p) → tensor_wf (data p')).
Proof.
  intros Hp Hwl. revert name p Hp Hwl.
  apply (load_model_invariant
           (fun s => ∀ name p, parameters model !! name = Some p → weight_loader p = None →
                      ∃ p', st_params s !! name = Some p' ∧ weight_loader p' = None ∧
                            t_shape (data p') = t_shape (data p) ∧
                            t_dtype (data p') = t_dtype (data p) ∧
                            (tensor_wf (data p) → tensor_wf (data p')))).
  - intros name p Hp Hwl. by exists p.
  - done.
  - intros f key names params s s' r _ _ Hs
      [->|(q & t & sid & d & Hq & Hsid & Hd & _ & ->)]%try_load_weight_params; [done|].
    intros name p Hp Hwl. destruct (Hs name p Hp Hwl) as (p' & Hp' & Hwl' & Hshape & Hdtype & Hwf).
    destruct (decide (target_name (default [] (packed_modules_mapping model)) key = name))
      as [Heq|Hne]; [|exists p'; by rewrite lookup_insert_ne].
    rewrite Heq in Hq. rewrite Hq in Hp'. injection Hp' as ->.
    rewrite Heq, lookup_insert_eq. eexists. split; [done|]. cbn [weight_loader data].
    split; [done|]. rewrite Hwl' in Hd. rewrite (Hsid Hwl') in Hd.
    cbn [from_option id default_weight_loader_callable] in Hd.
    apply copy_keeps_layout in Hd as (Hs1 & Hs2 & Hs3).
    rewrite Hs1, Hs2. auto.
Qed.

Lemma default_loaded_keep_layout_witness :
  ∃ p',
    st_params (load_model norm_model "/ckpt" [norm_file_old; norm_file_new]).1 !! "norm.weight"
    = Some p' ∧
    weight_loader p' = None ∧
    t_shape (data p') = t_shape (data {| data := vec [5; 5]%Z; weight_loader := None |}) ∧
    t_dtype (data p') = t_dtype (data {| data := vec [5; 5]%Z; weight_loader := None |}) ∧
    (tensor_wf (data {| data := vec [5; 5]%Z; weight_loader := None |}) →
     tensor_wf (data p')).
Proof.
  apply (default_loaded_keep_layout norm_model "/ckpt" [norm_file_old; norm_file_new]
           "norm.weight" {| data := vec [5; 5]%Z; weight_loader := None |}).
  - reflexivity.
  - reflexivity.
Defined.


(** A loop over the keys that runs to its end has looked up one name and
    called one loader for each key, in the order of the keys. *)
Lemma load_keys_success (packed : PackedMapping) (names params : list string)
    (l : list (ShardFile * string)) (s s' : State) :
  for_each l (fun fk => try_load_weight packed names params fk.1 fk.2) s = (s', Ok tt) →
  ∃ evs,
    st_trace s' = st_trace s ++ evs ∧
    looked_up evs = target_name packed <$> l.*2 ∧
    called evs = target_name packed <$> l.*2 ∧
    printed evs = [].
Proof.
  revert s; induction l as [|[f key] l IH]; intros s.
  - intros [= <-]. exists []. by rewrite app_nil_r.
  - rewrite for_each_cons. cbn [fst snd].
    destruct (try_load_weight packed names params f key s) as [s1 [[]|e1]] eqn:Hx; [|done].
    apply try_load_weight_split in Hx as (s0 & Hrun & _ & Ht1). rewrite app_nil_r in Ht1.
    apply load_weight_step in Hrun
      as [(_ & _ & e & [=])|(q & t & custom & sid & _ & _ & Ht0 & _ & _)].
    intros (evs & Ht & Hl & Hc & Hp)%IH.
    exists ([EvGetParameter (target_name packed key);
             EvCall (target_name packed key) custom (data q) t sid] ++ evs).
    split; [by rewrite Ht, Ht1, Ht0, <- app_assoc|].
    rewrite looked_up_app, called_app, printed_app, Hl, Hc, Hp. done.
Qed.

(** X7: a load that returns has visited every key of every file once, in
    the order of the files and of the keys in each file: for each key it has
    looked up one name, the key rewritten by the first rule that matches it
    or the key itself, and called one loader on that parameter; and it has
    printed nothing. *)
Theorem successful_load_visits_each_key_once (model : NnModule) (path : string)
    (safetensor_files : list ShardFile) (s' : State) :
  load_model model path safetensor_files = (s', Ok tt) →
  looked_up (st_trace s')
  = target_name (default [] (packed_modules_mapping model)) <$> (work safetensor_files).*2 ∧
  called (st_trace s')
  = target_name (default [] (packed_modules_mapping model)) <$> (work safetensor_files).*2 ∧
  (work safetensor_files).*2 = concat (keys <$> safetensor_files) ∧
  printed (st_trace s') = [].
Proof.
  destruct (load_model_run model path safetensor_files) as [[_ ->]|[_ ->]]; [done|].
  intros (evs & Ht & Hl & Hc & Hp)%load_keys_success.
  rewrite Ht. cbn [log st_trace]. rewrite looked_up_app, called_app, printed_app, Hl, Hc, Hp.
  repeat split; try done.
  clear. unfold work. induction safetensor_files as [|f files IH]; [done|].
  cbn [mbind list_bind fmap list_fmap concat]. rewrite fmap_app, IH. f_equal.
  rewrite <- list_fmap_compose. apply list_fmap_id.
Qed.

Lemma successful_load_visits_each_key_once_witness :
  looked_up (st_trace (load_model pair_model "/ckpt" [pair_file_a; pair_file_b]).1)
  = target_name (default [] (packed_modules_mapping pair_model))
      <$> (work [pair_file_a; pair_file_b]).*2 ∧
  called (st_trace (load_model pair_model "/ckpt" [pair_file_a; pair_file_b]).1)
  = target_name (default [] (packed_modules_mapping pair_model))
      <$> (work [pair_file_a; pair_file_b]).*2 ∧
  (work [pair_file_a; pair_file_b]).*2 = concat (keys <$> [pair_file_a; pair_file_b]) ∧
  printed (st_trace (load_model pair_model "/ckpt" [pair_file_a; pair_file_b]).1) = [].
Proof.
  apply (successful_load_visits_each_key_once pair_model "/ckpt" [pair_file_a; pair_file_b]
           (load_model pair_model "/ckpt" [pair_file_a; pair_file_b]).1).
  reflexivity.
Defined.

(** X8: files that hold no tensor load successfully and change nothing:
    once there is a file, the load returns without a lookup, and it does not
    check that any parameter was written. *)
Theorem files_without_keys_load_nothing (model : NnModule) (path : string)
    (safetensor_files : list ShardFile) :
  safetensor_files ≠ [] →
  Forall (fun f => tensors f = []) safetensor_files →
  load_model model path safetensor_files
  = ({| st_params := parameters model; st_trace := [EvNamedParameters] |}, Ok tt).
Proof.
  intros Hne Hempty.
  destruct (load_model_run model path safetensor_files) as [[-> _]|[_ ->]]; [done|].
  assert (work safetensor_files = []) as ->; [|done].
  clear Hne. unfold work. induction Hempty as [|f files Hf _ IH]; [done|].
  cbn [mbind list_bind]. unfold keys at 1. by rewrite Hf, IH.
Qed.

Lemma files_without_keys_load_nothing_witness :
  load_model ex_model "/ckpt" [empty_file]
  = ({| st_params := parameters ex_model; st_trace := [EvNamedParameters] |}, Ok tt).
Proof.
  apply (files_without_keys_load_nothing ex_model "/ckpt" [empty_file]).
  - discriminate.
  - repeat constructor.
Defined.

(** Keys that resolve to other names leave a parameter as it is. *)
Lemma load_keys_untargeted (packed : PackedMapping) (names params : list string)
    (l : list (ShardFile * string)) (s s' : State) (r : result unit) (name : string) :
  for_each l (fun fk => try_load_weight packed names params fk.1 fk.2) s = (s', r) →
  (∀ fk, fk ∈ l → target_name packed fk.2 ≠ name) →
  st_params s' !! name = st_params s !! name.
Proof.
  intros Hrun Hother.
  apply (for_each_invariant (fun st => st_params st !! name = st_params s !! name))
    in Hrun; [done| |done].
  intros [f key] s1 s2 r1 Hin Hs1
    [->|(q & t & sid & d & _ & _ & _ & _ & ->)]%try_load_weight_params; [done|].
  rewrite lookup_insert_ne; [done|]. by apply (Hother (f, key)).
Qed.

(** One key keeps the layout of a parameter that has no loader attached. *)
Lemma default_layout_step (packed : PackedMapping) (names params : list string)
    (f : ShardFile) (key : string) (s s' : State) (r : result unit)
    (name : string) (shape : list nat) (dt : dtype) :
  try_load_weight packed names params f key s = (s', r) →
  (∃ q, st_params s !! name = Some q ∧ weight_loader q = None ∧
        t_shape (data q) = shape ∧ t_dtype (data q) = dt) →
  ∃ q, st_params s' !! name = Some q ∧ weight_loader q = None ∧
       t_shape (data q) = shape ∧ t_dtype (data q) = dt.
Proof.
  intros [->|(q & t & sid & d & Hq & Hsid & Hd & _ & ->)]%try_load_weight_params; [done|].
  intros (q' & Hq' & Hwl & Hshape & Hdtype).
  destruct (decide (target_name packed key = name)) as [Heq|Hne];
    [|exists q'; by rewrite lookup_insert_ne].
  rewrite Heq in Hq. rewrite Hq in Hq'. injection Hq' as ->.
  rewrite Heq, lookup_insert_eq. eexists. split; [done|]. cbn [weight_loader data].
  split; [done|]. rewrite Hwl in Hd. rewrite (Hsid Hwl) in Hd.
  cbn [from_option id default_weight_loader_callable] in Hd.
  apply copy_keeps_layout in Hd as (-> & -> & _). done.
Qed.

(** X9: the last write wins.  When a load returns, a parameter with no
    loader attached holds the tensor of the last key that resolves to it,
    provided that tensor has the parameter's shape and element type: what
    earlier keys or earlier files wrote there is overwritten, as when two
    files hold the same key. *)
Theorem last_write_wins (model : NnModule) (path : string)
    (safetensor_files : list ShardFile) (s' : State)
    (before after : list (ShardFile * string)) (f : ShardFile) (key : string)
    (p : Param) (t : Tensor) :
  load_model model path safetensor_files = (s', Ok tt) →
  work safetensor_files = before ++ (f, key) :: after →
  Forall (fun r => PyStr.contains r.1 key = false) (default [] (packed_modules_mapping model)) →
  (∀ fk, fk ∈ after → target_name (default [] (packed_modules_mapping model)) fk.2 ≠ key) →
  parameters model !! key = Some p →
  weight_loader p = None →
  assoc key (tensors f) = Some t →
  t_shape t = t_shape (data p) →
  t_dtype t = t_dtype (data p) →
  tensor_wf t →
  st_params s' !! key = Some {| data := t; weight_loader := None |}.
Proof.
  intros Hrun Hwork Hno Hafter Hp Hwl Ht Hshape Hdtype Hwf.
  destruct (load_model_run model path safetensor_files) as [[_ Hrun']|[_ Hrun']];
    rewrite Hrun' in Hrun; [done|]. clear Hrun'.
  rewrite Hwork, for_each_app in Hrun.
  match type of Hrun with
  | context [for_each before ?body ?s0] =>
      destruct (for_each before body s0) as [s1 [[]|e1]] eqn:Hbefore; [|done]
  end.
  apply (for_each_invariant
           (fun st => ∃ q, st_params st !! key = Some q ∧ weight_loader q = None ∧
                           t_shape (data q) = t_shape (data p) ∧
                           t_dtype (data q) = t_dtype (data p))) in Hbefore
    as (q & Hq & Hwlq & Hshapeq & Hdtypeq).
  - rewrite for_each_cons in Hrun. cbn [fst snd] in Hrun.
    rewrite try_load_weight_run, load_weight_no_match in Hrun by done.
    rewrite (load_unpacked_exact f key s1 q t) in Hrun by (done || congruence).
    apply load_keys_untargeted with (name := key) in Hrun; [|done].
    rewrite Hrun. cbn [st_params]. by rewrite lookup_insert_eq.
  - intros [f0 key0] st st' r _. cbn [fst snd]. intros Hst Hstep.
    by apply (default_layout_step _ _ _ _ _ _ _ _ _ _ _ Hstep).
  - by exists p.
Qed.

Lemma last_write_wins_witness :
  st_params (load_model norm_model "/ckpt" [norm_file_old; norm_file_new]).1 !! "norm.weight"
  = Some {| data := vec [3; 4]%Z; weight_loader := None |}.
Proof.
  apply (last_write_wins norm_model "/ckpt" [norm_file_old; norm_file_new]
           (load_model norm_model "/ckpt" [norm_file_old; norm_file_new]).1
           [(norm_file_old, "norm.weight")] [] norm_file_new "norm.weight"
           {| data := vec [5; 5]%Z; weight_loader := None |} (vec [3; 4]%Z)).
  - reflexivity.
  - reflexivity.
  - constructor.
  - intros fk Hfk. by apply elem_of_nil in Hfk.
  - reflexivity.
  - reflexivity.
  - reflexivity.
  - reflexivity.
  - reflexivity.
  - reflexivity.
Defined.

(** A key that a rule matches, whose parameter exists and has a loader
    attached, comes down to one call of that loader. *)
Lemma load_weight_shard (packed : PackedMapping) (f : ShardFile) (key : string)
    (shard : shard_id) (s : State) (q : Param) (wl : Loader) (t : Tensor) :
  target_shard packed key = Some shard →
  st_params s !! target_name packed key = Some q →
  weight_loader q = Some wl →
  assoc key (tensors f) = Some t →
  load_weight packed f key s
  = call (target_name packed key) true wl q t (Some shard)
      (log (EvGetParameter (target_name packed key)) s).
Proof.
  induction packed as [|[k [v sh]] packed IH]; [done|].
  cbn [target_shard target_name load_weight].
  destruct (PyStr.contains k key); [|done].
  intros [= ->] Hq Hwl Ht. rewrite load_packed_run. cbn zeta. by rewrite Hq, Hwl, Ht.
Qed.

(** X10: the shards of a fused parameter accumulate.  When two successive
    keys are rewritten by the table to the same parameter, the loader
    attached to it is called once for each, with the key's own tensor and
    shard identifier, and the second call works on the storage that the
    first one left: the parameter ends with what the second call returned. *)
Theorem packed_shards_accumulate (packed : PackedMapping) (names params : list string)
    (f : ShardFile) (key1 key2 name : string) (shard1 shard2 : shard_id) (s : State)
    (p : Param) (wl : Loader) (t1 t2 d1 d2 : Tensor) :
  target_shard packed key1 = Some shard1 →
  target_shard packed key2 = Some shard2 →
  target_name packed key1 = name →
  target_name packed key2 = name →
  st_params s !! name = Some p →
  weight_loader p = Some wl →
  assoc key1 (tensors f) = Some t1 →
  assoc key2 (tensors f) = Some t2 →
  wl (data p) t1 (Some shard1) = Ok d1 →
  wl d1 t2 (Some shard2) = Ok d2 →
  for_each [key1; key2] (try_load_weight packed names params f) s
  = ({| st_params := <[name := {| data := d2; weight_loader := Some wl |}]> (st_params s);
        st_trace := st_trace s ++ [EvGetParameter name;
                                   EvCall name true (data p) t1 (Some shard1);
                                   EvGetParameter name;
                                   EvCall name true d1 t2 (Some shard2)] |},
     Ok tt).
Proof.
  intros Hs1 Hs2 Hn1 Hn2 Hp Hwl Ht1 Ht2 Hd1 Hd2.
  rewrite for_each_cons, try_load_weight_run.
  rewrite (load_weight_shard packed f key1 shard1 s p wl t1) by (done || by rewrite Hn1).
  rewrite Hn1. unfold call at 1. rewrite Hd1, Hwl.
  rewrite for_each_cons, try_load_weight_run.
  rewrite (load_weight_shard packed f key2 shard2 _
             {| data := d1; weight_loader := Some wl |} wl t2);
    [|done|by rewrite Hn2; cbn; rewrite lookup_insert_eq|done|done].
  rewrite Hn2. unfold call. cbn [data weight_loader]. rewrite Hd2.
  cbn [for_each ret log st_params st_trace].
  by rewrite insert_insert_eq, <- !app_assoc.
Qed.

Lemma packed_shards_accumulate_witness :
  for_each ["attn.q_proj.weight"; "attn.k_proj.weight"]
    (try_load_weight qkv_table [] [] qkv_file) ex_state
  = ({| st_params := <["attn.qkv_proj.weight" := {| data := vec [5; 6]%Z;
                                                    weight_loader := Some shard_loader |}]>
                       (st_params ex_state);
        st_trace := st_trace ex_state
                    ++ [EvGetParameter "attn.qkv_proj.weight";
                        EvCall "attn.qkv_proj.weight" true
                          (data {| data := vec [0; 0]%Z; weight_loader := Some shard_loader |})
                          (vec [3; 4]%Z) (Some (ShardName "q"));
                        EvGetParameter "attn.qkv_proj.weight";
                        EvCall "attn.qkv_proj.weight" true (vec [3; 4]%Z) (vec [5; 6]%Z)
                          (Some (ShardName "k"))] |},
     Ok tt).
Proof.
  apply (packed_shards_accumulate qkv_table [] [] qkv_file
           "attn.q_proj.weight" "attn.k_proj.weight" "attn.qkv_proj.weight"
           (ShardName "q") (ShardName "k") ex_state
           {| data := vec [0; 0]%Z; weight_loader := Some shard_loader |} shard_loader
           (vec [3; 4]%Z) (vec [5; 6]%Z) (vec [3; 4]%Z) (vec [5; 6]%Z)); reflexivity.
Defined.

Lemma broadcastable_aligned_ones (shape : list nat) :
  broadcastable_aligned shape (replicate (length shape) 1) = true.
Proof.
  induction shape as [|d shape IH]; [done|]. cbn [length replicate broadcastable_aligned].
  rewrite IH. by rewrite orb_true_r.
Qed.

Lemma src_offset_ones (shape : list nat) (i : nat) :
  src_offset shape (replicate (length shape) 1) i = 0.
Proof.
  revert i; induction shape as [|d shape IH]; intros i; [done|].
  cbn [length replicate src_offset]. by rewrite IH.
Qed.

Lemma align_ones (n m : nat) : m ≤ n → align n (replicate m 1) = replicate n 1.
Proof.
  intros Hm. unfold align. rewrite length_replicate, <- replicate_add. f_equal. lia.
Qed.

Lemma fmap_const_seq (x : Z) (start n : nat) : (fun _ => x) <$> seq start n = replicate n x.
Proof. revert start; induction n as [|n IH]; intros start; [done|]. cbn. by rewrite IH. Qed.

(** X11: the default loader does not require the loaded tensor to have the
    parameter's shape.  A tensor of one element, of shape [[]], [[1]],
    [[1, 1]] and so on up to the parameter's rank, is accepted for a
    parameter of any shape and fills it with that element, converted to the
    parameter's element type; the parameter keeps its shape. *)
Theorem default_loader_broadcasts_one_element (param : Tensor) (dt : dtype) (rank : nat) (x : Z) :
  rank ≤ length (t_shape param) →
  default_weight_loader param {| t_dtype := dt; t_shape := replicate rank 1; t_data := [x] |}
  = Ok {| t_dtype := t_dtype param;
          t_shape := t_shape param;
          t_data := replicate (numel (t_shape param)) (convert dt (t_dtype param) x) |}.
Proof.
  intros Hrank. unfold default_weight_loader, copy_, broadcastable, expand.
  cbn [t_shape t_dtype t_data].
  rewrite align_ones, length_replicate, broadcastable_aligned_ones by done.
  apply Nat.leb_le in Hrank as ->. cbn [andb]. do 2 f_equal.
  rewrite <- (fmap_const_seq (convert dt (t_dtype param) x) 0), <- list_fmap_compose.
  apply list_fmap_ext. intros j i _. cbn. by rewrite src_offset_ones.
Qed.

Lemma default_loader_broadcasts_one_element_witness :
  default_weight_loader (zeros [4; 8])
    {| t_dtype := Int32; t_shape := replicate 1 1; t_data := [7%Z] |}
  = Ok {| t_dtype := t_dtype (zeros [4; 8]);
          t_shape := t_shape (zeros [4; 8]);
          t_data := replicate (numel (t_shape (zeros [4; 8])))
                      (convert Int32 (t_dtype (zeros [4; 8])) 7%Z) |}.
Proof.
  apply (default_loader_broadcasts_one_element (zeros [4; 8]) Int32 1 7%Z).
  cbn. lia.
Defined.

Lemma work_keys (safetensor_files : list ShardFile) :
  (work safetensor_files).*2 = concat (keys <$> safetensor_files).
Proof.
  unfold work. induction safetensor_files as [|f files IH]; [done|].
  cbn [mbind list_bind fmap list_fmap concat]. rewrite fmap_app, IH. f_equal.
  rewrite <- list_fmap_compose. apply list_fmap_id.
Qed.

(** Keys that no rule matches, each the name of a parameter without loader
    whose shape and element type its tensor has, and no two of them equal,
    are all loaded, each into its own parameter. *)
Lemma load_disjoint_keys (packed : PackedMapping) (names params : list string)
    (l : list (ShardFile * string)) :
  NoDup l.*2 →
  (∀ f key, (f, key) ∈ l → Forall (fun r => PyStr.contains r.1 key = false) packed) →
  ∀ s,
    (∀ f key, (f, key) ∈ l →
       ∃ t q, assoc key (tensors f) = Some t ∧ tensor_wf t ∧
              st_params s !! key = Some q ∧ weight_loader q = None ∧
              t_shape (data q) = t_shape t ∧ t_dtype (data q) = t_dtype t) →
    ∃ s',
      for_each l (fun fk => try_load_weight packed names params fk.1 fk.2) s = (s', Ok tt) ∧
      (∀ f key t, (f, key) ∈ l → assoc key (tensors f) = Some t →
         st_params s' !! key = Some {| data := t; weight_loader := None |}) ∧
      (∀ name, name ∉ l.*2 → st_params s' !! name = st_params s !! name).
Proof.
  induction l as [|[f key] l IH]; intros Hdup Hno s Htarget.
  - exists s. split; [done|]. split; [by intros ??? ?%elem_of_nil|done].
  - apply NoDup_cons in Hdup as [Hkey Hdup]. cbn [fmap list_fmap snd] in *.
    destruct (Htarget f key) as (t & q & Ht & Hwf & Hq & Hwl & Hshape & Hdtype); [by left|].
    rewrite for_each_cons, try_load_weight_run. cbn [fst snd].
    rewrite load_weight_no_match by (apply (Hno f); by left).
    rewrite (load_unpacked_exact f key s q t) by done.
    set (s1 := {| st_params := <[key := {| data := t; weight_loader := None |}]> (st_params s);
                  st_trace := st_trace s ++ [EvGetParameter key;
                                             EvCall key false (data q) t None] |}).
    destruct (IH Hdup) with (s := s1) as (s' & Hrun & Hin & Hout).
    { intros f' key' Hin. apply (Hno f'). by right. }
    { intros f' key' Hin.
      destruct (Htarget f' key') as (t' & q' & ? & ? & Hq' & ?); [by right|].
      exists t', q'. split; [done|]. split; [done|]. split; [|done].
      cbn [s1 st_params]. rewrite lookup_insert_ne; [done|].
      intros ->. apply Hkey. apply list_elem_of_fmap. by exists (f', key'). }
    exists s'. split; [done|]. split.
    + intros f' key' t' [[= -> ->]|Hin']%elem_of_cons Ht'; [|by eapply Hin].
      rewrite Hout by done. cbn [s1 st_params]. rewrite lookup_insert_eq. congruence.
    + intros name [Hne Hname]%not_elem_of_cons.
      rewrite Hout by done. cbn [s1 st_params]. by rewrite lookup_insert_ne.
Qed.

(** A checkpoint split over several files, no key twice, loaded into
    parameters without loader. *)
Lemma load_sharded (model : NnModule) (path : string) (safetensor_files : list ShardFile) :
  safetensor_files ≠ [] →
  NoDup (concat (keys <$> safetensor_files)) →
  (∀ f key, f ∈ safetensor_files → key ∈ keys f →
     Forall (fun r => PyStr.contains r.1 key = false)
       (default [] (packed_modules_mapping model)) ∧
     ∃ t q, assoc key (tensors f) = Some t ∧ tensor_wf t ∧
            parameters model !! key = Some q ∧ weight_loader q = None ∧
            t_shape (data q) = t_shape t ∧ t_dtype (data q) = t_dtype t) →
  ∃ s',
    load_model model path safetensor_files = (s', Ok tt) ∧
    (∀ f key t, f ∈ safetensor_files → key ∈ keys f → assoc key (tensors f) = Some t →
       st_params s' !! key = Some {| data := t; weight_loader := None |}) ∧
    (∀ name, name ∉ concat (keys <$> safetensor_files) →
       st_params s' !! name = parameters model !! name).
Proof.
  intros Hne Hdup Hkeys. rewrite <- work_keys in *.
  destruct (load_model_run model path safetensor_files) as [[-> _]|[_ ->]]; [done|].
  match goal with
  | |- context [for_each _ (fun fk => try_load_weight ?packed ?names ?params _ _) ?s0] =>
      destruct (load_disjoint_keys packed names params (work safetensor_files) Hdup)
        with (s := s0) as (s' & Hrun & Hin & Hout)
  end.
  - intros f key [Hf Hkey]%elem_of_work. by destruct (Hkeys f key Hf Hkey).
  - intros f key [Hf Hkey]%elem_of_work. by destruct (Hkeys f key Hf Hkey).
  - exists s'. split; [done|]. split; [|done].
    intros f key t Hf Hkey. apply Hin. by apply elem_of_work.
Qed.

(** X12: a checkpoint split over several files is loaded as one.  When no
    key occurs twice, in one file or across files, no rule matches a key,
    and every key names a parameter without loader whose shape and element
    type its tensor has, the load returns, every such parameter holds
    exactly its tensor, and every other parameter is left as it was. *)
Theorem sharded_checkpoint_loads_each_tensor (model : NnModule) (path : string)
    (safetensor_files : list ShardFile) :
  safetensor_files ≠ [] →
  NoDup (concat (keys <$> safetensor_files)) →
  (∀ f key, f ∈ safetensor_files → key ∈ keys f →
     Forall (fun r => PyStr.contains r.1 key = false)
       (default [] (packed_modules_mapping model)) ∧
     ∃ t q, assoc key (tensors f) = Some t ∧ tensor_wf t ∧
            parameters model !! key = Some q ∧ weight_loader q = None ∧
            t_shape (data q) = t_shape t ∧ t_dtype (data q) = t_dtype t) →
  ∃ s',
    load_model model path safetensor_files = (s', Ok tt) ∧
    (∀ f key t, f ∈ safetensor_files → key ∈ keys f → assoc key (tensors f) = Some t →
       st_params s' !! key = Some {| data := t; weight_loader := None |}) ∧
    (∀ name, name ∉ concat (keys <$> safetensor_files) →
       st_params s' !! name = parameters model !! name).
Proof. apply load_sharded. Qed.

(** X13: the order of the files does not matter for such a checkpoint:
    under the conditions of X12, loading the same files in any other order
    returns as well and leaves the same parameters. *)
Theorem file_order_irrelevant (model : NnModule) (path : string)
    (safetensor_files reordered : list ShardFile) :
  reordered ≡ₚ safetensor_files →
  safetensor_files ≠ [] →
  NoDup (concat (keys <$> safetensor_files)) →
  (∀ f key, f ∈ safetensor_files → key ∈ keys f →
     Forall (fun r => PyStr.contains r.1 key = false)
       (default [] (packed_modules_mapping model)) ∧
     ∃ t q, assoc key (tensors f) = Some t ∧ tensor_wf t ∧
            parameters model !! key = Some q ∧ weight_loader q = None ∧
            t_shape (data q) = t_shape t ∧ t_dtype (data q) = t_dtype t) →
  (load_model model path reordered).2 = Ok tt ∧
  (load_model model path safetensor_files).2 = Ok tt ∧
  st_params (load_model model path reordered).1
  = st_params (load_model model path safetensor_files).1.
Proof.
  intros Hperm Hne Hdup Hkeys.
  assert (concat (keys <$> reordered) ≡ₚ concat (keys <$> safetensor_files)) as Hpk
    by (by rewrite Hperm).
  destruct (load_sharded model path safetensor_files Hne Hdup Hkeys)
    as (s1 & Hrun1 & Hin1 & Hout1).
  destruct (load_sharded model path reordered) as (s2 & Hrun2 & Hin2 & Hout2).
  { intros ->. apply Permutation_nil_l in Hperm. done. }
  { by rewrite Hpk. }
  { intros f key Hf. apply Hkeys. by rewrite <- Hperm. }
  rewrite Hrun1, Hrun2. split; [done|]. split; [done|]. cbn [fst].
  apply map_eq. intros name.
  destruct (decide (name ∈ concat (keys <$> safetensor_files))) as [Hin|Hnot].
  - apply list_elem_of_In, in_concat in Hin as (ks & Hks & Hname%list_elem_of_In).
    apply list_elem_of_In, list_elem_of_fmap in Hks as (f & -> & Hf).
    destruct (Hkeys f name Hf Hname) as (_ & t & q & Ht & _).
    rewrite (Hin1 f name t) by done. rewrite (Hin2 f name t); [done| |done..].
    by rewrite Hperm.
  - rewrite Hout1 by done. rewrite Hout2; [done|]. by rewrite Hpk.
Qed.

Lemma pair_files_keys (f : ShardFile) (key : string) :
  f ∈ [pair_file_a; pair_file_b] → key ∈ keys f →
  Forall (fun r => PyStr.contains r.1 key = false)
    (default [] (packed_modules_mapping pair_model)) ∧
  ∃ t q, assoc key (tensors f) = Some t ∧ tensor_wf t ∧
         parameters pair_model !! key = Some q ∧ weight_loader q = None ∧
         t_shape (data q) = t_shape t ∧ t_dtype (data q) = t_dtype t.
Proof.
  intros [->|[->|[]%elem_of_nil]%elem_of_cons]%elem_of_cons
    [->|[]%elem_of_nil]%elem_of_cons;
    (split; [constructor|]); eexists _, _; repeat split; reflexivity.
Defined.

Lemma pair_files_NoDup : NoDup (concat (keys <$> [pair_file_a; pair_file_b])).
Proof.
  apply NoDup_cons. split; [|apply NoDup_singleton].
  by intros [[=]|[]%elem_of_nil]%elem_of_cons.
Defined.

Lemma sharded_checkpoint_loads_each_tensor_witness :
  ∃ s',
    load_model pair_model "/ckpt" [pair_file_a; pair_file_b] = (s', Ok tt) ∧
    (∀ f key t, f ∈ [pair_file_a; pair_file_b] → key ∈ keys f →
       assoc key (tensors f) = Some t →
       st_params s' !! key = Some {| data := t; weight_loader := None |}) ∧
    (∀ name, name ∉ concat (keys <$> [pair_file_a; pair_file_b]) →
       st_params s' !! name = parameters pair_model !! name).
Proof.
  apply (sharded_checkpoint_loads_each_tensor pair_model "/ckpt" [pair_file_a; pair_file_b]).
  - discriminate.
  - exact pair_files_NoDup.
  - exact pair_files_keys.
Defined.

Lemma file_order_irrelevant_witness :
  (load_model pair_model "/ckpt" [pair_file_b; pair_file_a]).2 = Ok tt ∧
  (load_model pair_model "/ckpt" [pair_file_a; pair_file_b]).2 = Ok tt ∧
  st_params (load_model pair_model "/ckpt" [pair_file_b; pair_file_a]).1
  = st_params (load_model pair_model "/ckpt" [pair_file_a; pair_file_b]).1.
Proof.
  apply (file_order_irrelevant pair_model "/ckpt"
           [pair_file_a; pair_file_b] [pair_file_b; pair_file_a]).
  - apply Permutation_swap.
  - discriminate.
  - exact pair_files_NoDup.
  - exact pair_files_keys.
Defined.

(** X14: a load that raises on a key stops there.  It has looked up one
    name for each key up to and including the failing one, in order, and
    none for the keys after it; it has called one loader for each key before
    the failing one, and at most one more, on the failing key's own
    parameter. *)
Theorem failed_load_stops_at_first_failure (model : NnModule) (path : string)
    (safetensor_files : list ShardFile) (s' : State) (e : PyExc) :
  load_model model path safetensor_files = (s', Raise e) →
  safetensor_files ≠ [] →
  ∃ loaded failing rest,
    work safetensor_files = loaded ++ failing :: rest ∧
    looked_up (st_trace s')
    = target_name (default [] (packed_modules_mapping model)) <$> (loaded ++ [failing]).*2 ∧
    (called (st_trace s')
     = target_name (default [] (packed_modules_mapping model)) <$> loaded.*2 ∨
     called (st_trace s')
     = target_name (default [] (packed_modules_mapping model)) <$> (loaded ++ [failing]).*2).
Proof.
  intros Hrun Hne.
  destruct (load_model_run model path safetensor_files) as [[-> _]|[_ Hrun']]; [done|].
  rewrite Hrun' in Hrun. clear Hrun'.
  apply for_each_raise_inv in Hrun as (loaded & [f key] & rest & s1 & Hwork & Hloaded & Hfail).
  apply load_keys_success in Hloaded as (evs & Ht & Hl & Hc & _).
  cbn [fst snd] in Hfail.
  apply try_load_weight_split in Hfail as (s0 & Hstep & _ & Ht').
  exists loaded, (f, key), rest. split; [done|].
  rewrite Ht', looked_up_app, called_app, looked_up_prints, called_prints, !app_nil_r.
  rewrite !fmap_app. cbn [fmap list_fmap snd].
  apply load_weight_step in Hstep
    as [(Ht0 & _)|(q & t & custom & sid & _ & _ & Ht0 & _)];
    rewrite Ht0, Ht; cbn [log st_trace];
    rewrite !looked_up_app, !called_app, Hl, Hc; cbn; rewrite ?app_nil_r; auto.
Qed.

Lemma failed_load_stops_at_first_failure_witness :
  ∃ loaded failing rest,
    work [ex_file] = loaded ++ failing :: rest ∧
    looked_up (st_trace (load_model ex_model "/ckpt" [ex_file]).1)
    = target_name (default [] (packed_modules_mapping ex_model)) <$> (loaded ++ [failing]).*2 ∧
    (called (st_trace (load_model ex_model "/ckpt" [ex_file]).1)
     = target_name (default [] (packed_modules_mapping ex_model)) <$> loaded.*2 ∨
     called (st_trace (load_model ex_model "/ckpt" [ex_file]).1)
     = target_name (default [] (packed_modules_mapping ex_model)) <$> (loaded ++ [failing]).*2).
Proof.
  apply (failed_load_stops_at_first_failure ex_model "/ckpt" [ex_file]
           (load_model ex_model "/ckpt" [ex_file]).1
           {| exc_type := AttributeError;
              exc_msg := "has no attribute `qkv_proj.qkv_proj`" |}).
  - reflexivity.
  - discriminate.
Defined.

Lemma sorted_Permutation (names names' : list string) :
  names ≡ₚ names' → sorted names = sorted names'.
Proof.
  intros Hperm. unfold sorted.
  apply (Sorted_unique_strong String.le).
  - intros x1 x2 _ _ H1 H2. by apply (anti_symm String.le).
  - apply Sorted_merge_sort, _.
  - apply Sorted_merge_sort, _.
  - by rewrite !merge_sort_Permutation.
Qed.

(** For a given key, error and file, the lines of the report depend on the
    two lists of names only up to their order. *)
Lemma report_lines_Permutation (weight_name : string) (e : PyExc) (file : string)
    (all_weight_names all_weight_names' model_params model_params' : list string) :
  all_weight_names ≡ₚ all_weight_names' →
  model_params ≡ₚ model_params' →
  report_lines weight_name e file all_weight_names model_params
  = report_lines weight_name e file all_weight_names' model_params'.
Proof.
  intros Hw Hp. unfold report_lines, report_names.
  by rewrite (sorted_Permutation _ _ Hw), (sorted_Permutation _ _ Hp),
    (Permutation_length Hw), (Permutation_length Hp).
Qed.

(** ** The key a load stops on *)

Lemma target_shard_no_match (packed : PackedMapping) (key : string) :
  Forall (fun r => PyStr.contains r.1 key = false) packed → target_shard packed key = None.
Proof.
  induction 1 as [|[k [v shard]] packed Hk _ IH]; [done|].
  cbn [target_shard]. cbn [fst] in Hk. by rewrite Hk.
Qed.

Lemma target_shard_first_match (skipped rest : PackedMapping) (k v : string)
    (shard : shard_id) (key : string) :
  Forall (fun r => PyStr.contains r.1 key = false) skipped →
  PyStr.contains k key = true →
  target_shard (skipped ++ (k, (v, shard)) :: rest) key = Some shard.
Proof.
  induction 1 as [|[k' [v' shard']] skipped Hk' _ IH]; intros Hk.
  - cbn [app target_shard]. by rewrite Hk.
  - cbn [app target_shard]. cbn [fst] in Hk'. rewrite Hk'. by apply IH.
Qed.

(** One key writes what [written_by] says. *)
Lemma try_load_weight_written (packed : PackedMapping) (names params : list string)
    (f : ShardFile) (key : string) (s s' : State) (r : result unit) :
  try_load_weight packed names params f key s = (s', r) →
  st_params s' = written_by packed (st_params s) (f, key).
Proof.
  intros (s1 & Hrun & -> & _)%try_load_weight_split. revert Hrun.
  unfold written_by. cbn [fst snd].
  destruct (load_weight_cases packed f key)
    as [[Hno ->]|(skipped & k & v & shard & rest & -> & Hskip & Hk & ->)].
  - rewrite (target_name_no_match _ _ Hno), (target_shard_no_match _ _ Hno), load_unpacked_run.
    cbn zeta. destruct (st_params s !! key) as [q|]; [|by intros [= <- _]].
    destruct (assoc key (tensors f)) as [t|]; [|by destruct (weight_loader q); intros [= <- _]].
    unfold call. destruct (weight_loader q) as [wl|] eqn:Hwl; cbn [from_option id].
    + by destruct (wl (data q) t None); intros [= <- _].
    + cbn [default_weight_loader_callable]. unfold default_weight_loader.
      by destruct (copy_ (data q) t); intros [= <- _].
  - rewrite (target_name_first_match _ _ _ _ _ _ Hskip Hk),
      (target_shard_first_match _ _ _ _ _ _ Hskip Hk), load_packed_run.
    cbn zeta. destruct (st_params s !! PyStr.replace key k v) as [q|]; [|by intros [= <- _]].
    destruct (weight_loader q) as [wl|] eqn:Hwl.
    + destruct (assoc key (tensors f)) as [t|]; [|by intros [= <- _]].
      unfold call. rewrite Hwl.
      by destruct (wl (data q) t (Some shard)); intros [= <- _].
    + by destruct (assoc key (tensors f)); intros [= <- _].
Qed.

Lemma load_keys_written (packed : PackedMapping) (names params : list string)
    (l : list (ShardFile * string)) (s s' : State) (r : result unit) :
  for_each l (fun fk => try_load_weight packed names params fk.1 fk.2) s = (s', r) →
  ∃ ran, ran `prefix_of` l ∧ (r = Ok tt → ran = l) ∧
         st_params s' = foldl (written_by packed) (st_params s) ran.
Proof.
  revert s; induction l as [|[f key] l IH]; intros s.
  - intros [= <- <-]. by exists [].
  - rewrite for_each_cons. cbn [fst snd].
    destruct (try_load_weight packed names params f key s) as [s1 [[]|e1]] eqn:Hx;
      apply try_load_weight_written in Hx.
    + intros (ran & Hpre & Hall & Hw)%IH. exists ((f, key) :: ran).
      split; [by apply prefix_cons|]. split; [by intros ->%Hall|].
      cbn [foldl]. by rewrite <- Hx.
    + intros [= <- <-]. exists [(f, key)].
      split; [apply prefix_cons, prefix_nil|]. split; [done|]. by cbn [foldl].
Qed.

(** In a run of keys to the end, a parameter without loader holds the
    tensor of the last key that resolves to it, when no rule matches that
    key and the tensor has the parameter's layout. *)
Lemma load_keys_last_default (packed : PackedMapping) (names params : list string)
    (before after : list (ShardFile * string)) (f : ShardFile) (key : string)
    (s s' : State) (p : Param) (t : Tensor) :
  for_each (before ++ (f, key) :: after)
    (fun fk => try_load_weight packed names params fk.1 fk.2) s = (s', Ok tt) →
  Forall (fun r => PyStr.contains r.1 key = false) packed →
  (∀ fk, fk ∈ after → target_name packed fk.2 ≠ key) →
  st_params s !! key = Some p →
  weight_loader p = None →
  assoc key (tensors f) = Some t →
  t_shape t = t_shape (data p) →
  t_dtype t = t_dtype (data p) →
  tensor_wf t →
  st_params s' !! key = Some {| data := t; weight_loader := None |}.
Proof.
  intros Hrun Hno Hafter Hp Hwl Ht Hshape Hdtype Hwf.
  rewrite for_each_app in Hrun.
  match type of Hrun with
  | context [for_each before ?body ?s0] =>
      destruct (for_each before body s0) as [s1 [[]|e1]] eqn:Hbefore; [|done]
  end.
  apply (for_each_invariant
           (fun st => ∃ q, st_params st !! key = Some q ∧ weight_loader q = None ∧
                           t_shape (data q) = t_shape (data p) ∧
                           t_dtype (data q) = t_dtype (data p))) in Hbefore
    as (q & Hq & Hwlq & Hshapeq & Hdtypeq).
  - rewrite for_each_cons in Hrun. cbn [fst snd] in Hrun.
    rewrite try_load_weight_run, load_weight_no_match in Hrun by done.
    rewrite (load_unpacked_exact f key s1 q t) in Hrun by (done || congruence).
    apply load_keys_untargeted with (name := key) in Hrun; [|done].
    rewrite Hrun. cbn [st_params]. by rewrite lookup_insert_eq.
  - intros [f0 key0] st st' r _. cbn [fst snd]. intros Hst Hstep.
    by apply (default_layout_step _ _ _ _ _ _ _ _ _ _ _ Hstep).
  - by exists p.
Qed.

(** A load that raises an [AttributeError] has loaded every key before
    one key, raised on that key, and printed the report of that key. *)
Lemma load_model_attribute_error (model : NnModule) (path : string)
    (safetensor_files : list ShardFile) (s' : State) (e : PyExc) :
  load_model model path safetensor_files = (s', Raise e) →
  exc_type e = AttributeError →
  ∃ loaded f key rest s1 s2,
    work safetensor_files = loaded ++ (f, key) :: rest ∧
    for_each loaded
      (fun fk => try_load_weight (default [] (packed_modules_mapping model))
                   (concat (keys <$> safetensor_files))
                   (map_to_list (parameters model)).*1 fk.1 fk.2)
      (log EvNamedParameters {| st_params := parameters model; st_trace := [] |})
    = (s1, Ok tt) ∧
    load_weight (default [] (packed_modules_mapping model)) f key s1 = (s2, Raise e) ∧
    printed (st_trace s')
    = report_lines key e (file_path f) (concat (keys <$> safetensor_files))
        (map_to_list (parameters model)).*1.
Proof.
  intros Hrun He.
  destruct (load_model_run model path safetensor_files) as [[_ Hrun']|[_ Hrun']];
    rewrite Hrun' in Hrun; [by injection Hrun as _ <-|]. clear Hrun'.
  apply for_each_raise_inv in Hrun as (loaded & [f key] & rest & s1 & Hwork & Hloaded & Hfail).
  exists loaded, f, key, rest, s1. cbn [fst snd] in Hfail.
  apply try_load_weight_split in Hfail as (s2 & Hstep & _ & Ht').
  exists s2. split; [done|]. split; [done|]. split; [done|].
  apply load_keys_success in Hloaded as (evs & Ht & _ & _ & Hp).
  apply load_weight_effect in Hstep as (evs' & Ht2 & Hp' & _).
  rewrite decide_True in Ht' by done.
  rewrite Ht', Ht2, Ht. cbn [log st_trace].
  rewrite !printed_app, printed_prints, Hp, Hp'. done.
Qed.

(** C8: when the load fails with an [AttributeError], what it has printed
    is the report of the key it failed on: every key before that one, in the
    order of the files and of their keys, was loaded, and loading that one
    raised the error.  The report holds that key, the error, the path of the
    key's file, and for the keys of all files and for the names of the
    model's parameters the first 20 names in sorted order (fewer when there
    are fewer) followed, when there are more than 20, by the count of the
    rest, which is the total minus 20. *)
Theorem failure_report_contents (model : NnModule) (path : string)
    (safetensor_files : list ShardFile) (s' : State) (e : PyExc) :
  load_model model path safetensor_files = (s', Raise e) →
  exc_type e = AttributeError →
  ∃ loaded f key rest s1 s2,
    work safetensor_files = loaded ++ (f, key) :: rest ∧
    for_each loaded
      (fun fk => try_load_weight (default [] (packed_modules_mapping model))
                   (concat (keys <$> safetensor_files))
                   (map_to_list (parameters model)).*1 fk.1 fk.2)
      (log EvNamedParameters {| st_params := parameters model; st_trace := [] |})
    = (s1, Ok tt) ∧
    load_weight (default [] (packed_modules_mapping model)) f key s1 = (s2, Raise e) ∧
    f ∈ safetensor_files ∧ key ∈ keys f ∧
    printed (st_trace s')
    = [ nl +:+ rule;
        "[nano-vllm] Weight loading error!";
        rule;
        "Failed to load weight: " +:+ key;
        "Error: " +:+ exc_msg e;
        nl +:+ "Weight file: " +:+ file_path f;
        nl +:+ "--- Weights in safetensors file (first 20) ---" ]
      ++ report_names (concat (keys <$> safetensor_files))
      ++ [ nl +:+ "--- Model parameters (first 20) ---" ]
      ++ report_names (map_to_list (parameters model)).*1
      ++ [ rule +:+ nl ] ∧
    ∀ names,
      names = concat (keys <$> safetensor_files) ∨
      names = (map_to_list (parameters model)).*1 →
      ∃ sample omitted,
        sample ++ omitted ≡ₚ names ∧
        StronglySorted String.le (sample ++ omitted) ∧
        length sample ≤ 20 ∧
        length omitted = length names - 20 ∧
        report_names names
        = ((fun name => "  " +:+ name) <$> sample)
          ++ (if decide (20 < length names)
              then ["  ... and " +:+ pretty (length omitted) +:+ " more"]
              else []).
Proof.
  intros Hrun He.
  destruct (load_model_attribute_error model path safetensor_files s' e Hrun He)
    as (loaded & f & key & rest & s1 & s2 & Hwork & Hloaded & Hstep & Hp).
  assert ((f, key) ∈ work safetensor_files) as [Hf Hkey]%elem_of_work
    by (rewrite Hwork; set_solver).
  exists loaded, f, key, rest, s1, s2. repeat (split; [done|]).
  intros names _. apply report_names_sample.
Qed.

Lemma failure_report_contents_witness :
  ∃ loaded f key rest s1 s2,
    work [ex_file] = loaded ++ (f, key) :: rest ∧
    for_each loaded
      (fun fk => try_load_weight (default [] (packed_modules_mapping ex_model))
                   (concat (keys <$> [ex_file]))
                   (map_to_list (parameters ex_model)).*1 fk.1 fk.2)
      (log EvNamedParameters {| st_params := parameters ex_model; st_trace := [] |})
    = (s1, Ok tt) ∧
    load_weight (default [] (packed_modules_mapping ex_model)) f key s1
    = (s2, Raise {| exc_type := AttributeError;
                    exc_msg := "has no attribute `qkv_proj.qkv_proj`" |}) ∧
    f ∈ [ex_file] ∧ key ∈ keys f ∧
    printed (st_trace (load_model ex_model "/ckpt" [ex_file]).1)
    = [ nl +:+ rule;
        "[nano-vllm] Weight loading error!";
        rule;
        "Failed to load weight: " +:+ key;
        "Error: " +:+ exc_msg {| exc_type := AttributeError;
                                 exc_msg := "has no attribute `qkv_proj.qkv_proj`" |};
        nl +:+ "Weight file: " +:+ file_path f;
        nl +:+ "--- Weights in safetensors file (first 20) ---" ]
      ++ report_names (concat (keys <$> [ex_file]))
      ++ [ nl +:+ "--- Model parameters (first 20) ---" ]
      ++ report_names (map_to_list (parameters ex_model)).*1
      ++ [ rule +:+ nl ] ∧
    ∀ names,
      names = concat (keys <$> [ex_file]) ∨
      names = (map_to_list (parameters ex_model)).*1 →
      ∃ sample omitted,
        sample ++ omitted ≡ₚ names ∧
        StronglySorted String.le (sample ++ omitted) ∧
        length sample ≤ 20 ∧
        length omitted = length names - 20 ∧
        report_names names
        = ((fun name => "  " +:+ name) <$> sample)
          ++ (if decide (20 < length names)
              then ["  ... and " +:+ pretty (length omitted) +:+ " more"]
              else []).
Proof.
  apply (failure_report_contents ex_model "/ckpt" [ex_file]
           (load_model ex_model "/ckpt" [ex_file]).1
           {| exc_type := AttributeError;
              exc_msg := "has no attribute `qkv_proj.qkv_proj`" |}).
  - reflexivity.
  - reflexivity.
Defined.

(** C10: a load that raises on a key has run every key before it to the
    end and has gone no further, and nothing is rolled back.  The
    parameters are those the keys before the failing one have written, each
    key putting in its parameter what its loader made of the key's tensor;
    the failing key has changed none, and a parameter that none of the
    loaded keys resolves to, or on which no loader was called, has the
    contents it had before the load.  In particular a parameter without
    loader whose last loaded key carried a tensor of its shape and element
    type holds exactly that tensor. *)
Theorem abort_keeps_partial_load (model : NnModule) (path : string)
    (safetensor_files : list ShardFile) (s' : State) (e : PyExc) :
  load_model model path safetensor_files = (s', Raise e) →
  safetensor_files ≠ [] →
  let packed := default [] (packed_modules_mapping model) in
  let body := fun fk : ShardFile * string =>
    try_load_weight packed
      (concat (keys <$> safetensor_files)) (map_to_list (parameters model)).*1 fk.1 fk.2 in
  ∃ loaded failing rest s1,
    work safetensor_files = loaded ++ failing :: rest ∧
    for_each loaded body
      (log EvNamedParameters {| st_params := parameters model; st_trace := [] |}) = (s1, Ok tt) ∧
    body failing s1 = (s', Raise e) ∧
    st_params s' = st_params s1 ∧
    st_params s' = foldl (written_by packed) (parameters model) loaded ∧
    (∀ name, name ∉ called (st_trace s') → st_params s' !! name = parameters model !! name) ∧
    (∀ name, name ∉ target_name packed <$> loaded.*2 →
             st_params s' !! name = parameters model !! name) ∧
    (∀ before f key after p t,
       loaded = before ++ (f, key) :: after →
       Forall (fun r => PyStr.contains r.1 key = false) packed →
       (∀ fk, fk ∈ after → target_name packed fk.2 ≠ key) →
       parameters model !! key = Some p →
       weight_loader p = None →
       assoc key (tensors f) = Some t →
       t_shape t = t_shape (data p) →
       t_dtype t = t_dtype (data p) →
       tensor_wf t →
       st_params s' !! key = Some {| data := t; weight_loader := None |}).
Proof.
  intros Hrun Hfiles packed body.
  destruct (load_model_run model path safetensor_files) as [[-> _]|[_ Hrun']]; [done|].
  rewrite Hrun' in Hrun. clear Hrun'. fold packed in Hrun. fold body in Hrun.
  pose proof Hrun as (loaded & failing & rest & s1 & Hwork & Hloaded & Hfail)%for_each_raise_inv.
  exists loaded, failing, rest, s1. split; [done|]. split; [done|]. split; [done|].
  assert (st_params s' = st_params s1) as Hsame.
  { apply try_load_weight_effect in Hfail as (_ & _ & _ & Hsame & _). by apply (Hsame e). }
  split; [done|]. split; [|split; [|split]].
  - rewrite Hsame. pose proof Hloaded as (ran & _ & Hall & Hw)%load_keys_written.
    by rewrite Hw, (Hall eq_refl).
  - apply load_keys_effect in Hrun as (evs & Ht & Hc & _).
    intros name Hname. rewrite Hc; [done|].
    rewrite Ht in Hname. cbn [log st_trace] in Hname.
    rewrite called_app in Hname. set_solver.
  - intros name Hname. rewrite Hsame.
    rewrite (load_keys_untargeted _ _ _ _ _ _ _ name Hloaded); [done|].
    intros fk Hfk Heq. apply Hname. apply list_elem_of_fmap. exists fk.2.
    split; [done|]. apply list_elem_of_fmap. by exists fk.
  - intros before f key after p t -> Hno Hafter Hp Hwl Ht Hshape Hdtype Hwf.
    rewrite Hsame.
    by apply (load_keys_last_default _ _ _ _ _ _ _ _ _ p t Hloaded).
Qed.

Lemma abort_keeps_partial_load_witness :
  let packed := default [] (packed_modules_mapping ex_model) in
  let body := fun fk : ShardFile * string =>
    try_load_weight packed
      (concat (keys <$> [ex_file])) (map_to_list (parameters ex_model)).*1 fk.1 fk.2 in
  ∃ loaded failing rest s1,
    work [ex_file] = loaded ++ failing :: rest ∧
    for_each loaded body
      (log EvNamedParameters {| st_params := parameters ex_model; st_trace := [] |})
    = (s1, Ok tt) ∧
    body failing s1
    = ((load_model ex_model "/ckpt" [ex_file]).1,
       Raise {| exc_type := AttributeError;
                exc_msg := "has no attribute `qkv_proj.qkv_proj`" |}) ∧
    st_params (load_model ex_model "/ckpt" [ex_file]).1 = st_params s1 ∧
    st_params (load_model ex_model "/ckpt" [ex_file]).1
    = foldl (written_by packed) (parameters ex_model) loaded ∧
    (∀ name, name ∉ called (st_trace (load_model ex_model "/ckpt" [ex_file]).1) →
             st_params (load_model ex_model "/ckpt" [ex_file]).1 !! name
             = parameters ex_model !! name) ∧
    (∀ name, name ∉ target_name packed <$> loaded.*2 →
             st_params (load_model ex_model "/ckpt" [ex_file]).1 !! name
             = parameters ex_model !! name) ∧
    (∀ before f key after p t,
       loaded = before ++ (f, key) :: after →
       Forall (fun r => PyStr.contains r.1 key = false) packed →
       (∀ fk, fk ∈ after → target_name packed fk.2 ≠ key) →
       parameters ex_model !! key = Some p →
       weight_loader p = None →
       assoc key (tensors f) = Some t →
       t_shape t = t_shape (data p) →
       t_dtype t = t_dtype (data p) →
       tensor_wf t →
       st_params (load_model ex_model "/ckpt" [ex_file]).1 !! key
       = Some {| data := t; weight_loader := None |}).
Proof.
  apply (abort_keeps_partial_load ex_model "/ckpt" [ex_file]
           (load_model ex_model "/ckpt" [ex_file]).1
           {| exc_type := AttributeError;
              exc_msg := "has no attribute `qkv_proj.qkv_proj`" |}).
  - reflexivity.
  - discriminate.
Defined.

(** What the aborted load of [ex_file] leaves: ["norm.weight"], loaded
    before the failing key, holds the file's tensor, and
    ["attn.qkv_proj.weight"] holds what its loader made of the ["q"]
    shard. *)
Example aborted_load_keeps_what_was_written :
  (load_model ex_model "/ckpt" [ex_file]).2
  = Raise {| exc_type := AttributeError; exc_msg := "has no attribute `qkv_proj.qkv_proj`" |} ∧
  data <$> (st_params (load_model ex_model "/ckpt" [ex_file]).1 !! "norm.weight")
  = Some (vec [1; 2]%Z) ∧
  data <$> (st_params (load_model ex_model "/ckpt" [ex_file]).1 !! "attn.qkv_proj.weight")
  = Some (vec [3; 4]%Z).
Proof. repeat split; reflexivity. Qed.

(** X15: the samples of names in the report do not depend on the order in
    which the files are listed.  A load of the same files in another order
    that fails with an [AttributeError] prints the report of the key it
    failed on, with that key's error and file, over the same two samples
    and counts as for the original order: the keys of all files are sorted
    before the first 20 are shown.  (Which key fails first can differ with
    the order of the files.) *)
Theorem report_samples_independent_of_file_order (model : NnModule) (path : string)
    (safetensor_files reordered : list ShardFile) (s' : State) (e : PyExc) :
  reordered ≡ₚ safetensor_files →
  load_model model path reordered = (s', Raise e) →
  exc_type e = AttributeError →
  ∃ loaded f key rest s1 s2,
    work reordered = loaded ++ (f, key) :: rest ∧
    for_each loaded
      (fun fk => try_load_weight (default [] (packed_modules_mapping model))
                   (concat (keys <$> reordered))
                   (map_to_list (parameters model)).*1 fk.1 fk.2)
      (log EvNamedParameters {| st_params := parameters model; st_trace := [] |})
    = (s1, Ok tt) ∧
    load_weight (default [] (packed_modules_mapping model)) f key s1 = (s2, Raise e) ∧
    printed (st_trace s')
    = report_lines key e (file_path f) (concat (keys <$> safetensor_files))
        (map_to_list (parameters model)).*1 ∧
    report_names (concat (keys <$> reordered))
    = report_names (concat (keys <$> safetensor_files)).
Proof.
  intros Hperm Hrun He.
  assert (concat (keys <$> reordered) ≡ₚ concat (keys <$> safetensor_files)) as Hpk
    by (by rewrite Hperm).
  destruct (load_model_attribute_error model path reordered s' e Hrun He)
    as (loaded & f & key & rest & s1 & s2 & Hwork & Hloaded & Hstep & Hp).
  exists loaded, f, key, rest, s1, s2. repeat (split; [done|]). split.
  - rewrite Hp. by apply report_lines_Permutation.
  - unfold report_names. by rewrite (sorted_Permutation _ _ Hpk), (Permutation_length Hpk).
Qed.

Lemma report_samples_independent_of_file_order_witness :
  ∃ loaded f key rest s1 s2,
    work [ex_file; norm_file_old] = loaded ++ (f, key) :: rest ∧
    for_each loaded
      (fun fk => try_load_weight (default [] (packed_modules_mapping ex_model))
                   (concat (keys <$> [ex_file; norm_file_old]))
                   (map_to_list (parameters ex_model)).*1 fk.1 fk.2)
      (log EvNamedParameters {| st_params := parameters ex_model; st_trace := [] |})
    = (s1, Ok tt) ∧
    load_weight (default [] (packed_modules_mapping ex_model)) f key s1
    = (s2, Raise {| exc_type := AttributeError;
                    exc_msg := "has no attribute `qkv_proj.qkv_proj`" |}) ∧
    printed (st_trace (load_model ex_model "/ckpt" [ex_file; norm_file_old]).1)
    = report_lines key
        {| exc_type := AttributeError; exc_msg := "has no attribute `qkv_proj.qkv_proj`" |}
        (file_path f) (concat (keys <$> [norm_file_old; ex_file]))
        (map_to_list (parameters ex_model)).*1 ∧
    report_names (concat (keys <$> [ex_file; norm_file_old]))
    = report_names (concat (keys <$> [norm_file_old; ex_file])).
Proof.
  apply (report_samples_independent_of_file_order ex_model "/ckpt"
           [norm_file_old; ex_file] [ex_file; norm_file_old]
           (load_model ex_model "/ckpt" [ex_file; norm_file_old]).1
           {| exc_type := AttributeError;
              exc_msg := "has no attribute `qkv_proj.qkv_proj`" |}).
  - apply Permutation_swap.
  - reflexivity.
  - reflexivity.
Defined.
